(** * valomap-videoanalyst: the result-normalization layer

    A shallow embedding of the post-processing that both provider
    services ([services/geminiService.ts], [services/openaiService.ts])
    apply to the model's reply, and of the drag-to-select state machine of
    [components/MinimapSelector.tsx]; then of the code around them: how
    the services end, [getMousePos], [getTeamColor] of
    [components/AnalysisVisualizer.tsx] and the handlers of [App.tsx].

    Replies.  The services are read twice: on the replies that have the
    shape of their reply interface (modules [Gemini], [OpenAI]), and on
    every value [JSON.parse] can return (module [Untyped]), where a
    property read or a call can throw.  The second reading restricted to
    well-shaped replies is the first.

    Numbers.  A TypeScript [number] is an IEEE-754 binary64 value.  The
    code only uses [+ - * /], the comparisons, [Math.min] and [Math.max],
    so every definition below is written once over an interface
    [JSNumber] of exactly these operations.  Two instances are given:

    - [number]: exact rationals extended with [+Infinity], [-Infinity]
      and [NaN], with the IEEE rules for the non-finite cases (division
      by zero, [Infinity - Infinity], comparisons with [NaN], ...).
      Rounding of finite results, overflow and the sign of zero are not
      represented.  The arithmetic facts are proved on this instance.
    - [float]: Rocq's primitive binary64 floats, used to evaluate the
      code on concrete inputs with the machine's own arithmetic.

    Theorems that do not depend on arithmetic are stated for every
    instance of the interface. *)

From Stdlib Require Import ZArith QArith Qreduction Lqa Lia List String Bool.
From Stdlib Require Import PrimFloat Uint63.
Import ListNotations.

Set Implicit Arguments.

(** ** The numeric interface *)

Class JSNumber (num : Type) : Type := {
  lit : Z -> num;                  (* an integer literal of the source *)
  add : num -> num -> num;         (* a + b *)
  sub : num -> num -> num;         (* a - b *)
  mul : num -> num -> num;         (* a * b *)
  div : num -> num -> num;         (* a / b *)
  leb : num -> num -> bool;        (* a <= b *)
  ltb : num -> num -> bool;        (* a < b *)
  mathMin : num -> num -> num;     (* Math.min(a, b) *)
  mathMax : num -> num -> num      (* Math.max(a, b) *)
}.

(** ECMAScript evaluates [a >= b] as [b <= a] and [a > b] as [b < a]
    (both through IsLessThan, an undefined outcome giving [false]). *)
Definition geb {num} `{JSNumber num} (a b : num) : bool := leb b a.
Definition gtb {num} `{JSNumber num} (a b : num) : bool := ltb b a.

Declare Scope js_scope.
Delimit Scope js_scope with js.
Notation "a + b" := (add a b) : js_scope.
Notation "a - b" := (sub a b) : js_scope.
Notation "a * b" := (mul a b) : js_scope.
Notation "a / b" := (div a b) : js_scope.
Notation "a <=? b" := (leb a b) : js_scope.
Notation "a >=? b" := (geb a b) (at level 70) : js_scope.
Notation "a >? b" := (gtb a b) (at level 70) : js_scope.

(** ** Exact extended numbers *)

Inductive number : Type :=
| Fin (q : Q)
| PosInf
| NegInf
| NaN.

(** Finite results are kept in lowest terms, so that equal values are
    equal terms. *)
Definition fin (q : Q) : number := Fin (Qred q).

Definition isZero (q : Q) : bool := Z.eqb (Qnum q) 0.
Definition isNeg (q : Q) : bool := Z.ltb (Qnum q) 0.

Definition neg (a : number) : number :=
  match a with
  | Fin q => Fin (- q)
  | PosInf => NegInf
  | NegInf => PosInf
  | NaN => NaN
  end.

Definition nadd (a b : number) : number :=
  match a, b with
  | NaN, _ | _, NaN => NaN
  | Fin p, Fin q => fin (p + q)
  | PosInf, NegInf | NegInf, PosInf => NaN
  | PosInf, _ | _, PosInf => PosInf
  | NegInf, _ | _, NegInf => NegInf
  end.

Definition nsub (a b : number) : number := nadd a (neg b).

(** The infinity of a given sign ([true] for negative). *)
Definition infinity (negative : bool) : number :=
  if negative then NegInf else PosInf.

Definition nmul (a b : number) : number :=
  match a, b with
  | NaN, _ | _, NaN => NaN
  | Fin p, Fin q => fin (p * q)
  | Fin p, PosInf | PosInf, Fin p =>
      if isZero p then NaN else infinity (isNeg p)
  | Fin p, NegInf | NegInf, Fin p =>
      if isZero p then NaN else infinity (negb (isNeg p))
  | PosInf, PosInf | NegInf, NegInf => PosInf
  | PosInf, NegInf | NegInf, PosInf => NegInf
  end.

(** Division.  A zero divisor is taken as [+0]: [0/0] is [NaN] and a
    non-zero finite number over zero is the infinity of its sign. *)
Definition ndiv (a b : number) : number :=
  match a, b with
  | NaN, _ | _, NaN => NaN
  | Fin p, Fin q =>
      if isZero q
      then (if isZero p then NaN else infinity (isNeg p))
      else fin (p / q)
  | Fin _, (PosInf | NegInf) => Fin 0
  | PosInf, Fin q => infinity (isNeg q)
  | NegInf, Fin q => infinity (negb (isNeg q))
  | (PosInf | NegInf), (PosInf | NegInf) => NaN
  end.

Definition nleb (a b : number) : bool :=
  match a, b with
  | NaN, _ | _, NaN => false
  | Fin p, Fin q => Qle_bool p q
  | NegInf, _ | _, PosInf => true
  | _, _ => false
  end.

Definition nltb (a b : number) : bool :=
  match a, b with
  | NaN, _ | _, NaN => false
  | Fin p, Fin q => negb (Qle_bool q p)
  | PosInf, _ | _, NegInf => false
  | _, _ => true
  end.

(** [Math.min] and [Math.max] return [NaN] as soon as one argument is. *)
Definition nmin (a b : number) : number :=
  match a, b with
  | NaN, _ | _, NaN => NaN
  | _, _ => if nleb a b then a else b
  end.

Definition nmax (a b : number) : number :=
  match a, b with
  | NaN, _ | _, NaN => NaN
  | _, _ => if nleb a b then b else a
  end.

#[export] Instance exact : JSNumber number := {
  lit z := Fin (inject_Z z);
  add := nadd;
  sub := nsub;
  mul := nmul;
  div := ndiv;
  leb := nleb;
  ltb := nltb;
  mathMin := nmin;
  mathMax := nmax
}.

(** ** Binary64 numbers *)

Definition flit (z : Z) : float :=
  match z with
  | Zneg _ => PrimFloat.opp (PrimFloat.of_uint63 (Uint63.of_Z (- z)))
  | _ => PrimFloat.of_uint63 (Uint63.of_Z z)
  end.

(** [Math.min]/[Math.max] on floats: [NaN] is contagious and [-0] is
    below [+0]. *)
Definition fmin (a b : float) : float :=
  if PrimFloat.is_nan a || PrimFloat.is_nan b then PrimFloat.nan
  else if PrimFloat.ltb a b then a
  else if PrimFloat.ltb b a then b
  else if PrimFloat.get_sign a then a else b.

Definition fmax (a b : float) : float :=
  if PrimFloat.is_nan a || PrimFloat.is_nan b then PrimFloat.nan
  else if PrimFloat.ltb a b then b
  else if PrimFloat.ltb b a then a
  else if PrimFloat.get_sign a then b else a.

#[export] Instance binary64 : JSNumber float := {
  lit := flit;
  add := PrimFloat.add;
  sub := PrimFloat.sub;
  mul := PrimFloat.mul;
  div := PrimFloat.div;
  leb := PrimFloat.leb;
  ltb := PrimFloat.ltb;
  mathMin := fmin;
  mathMax := fmax
}.

(** ** Data model ([types.ts] and the services' raw-reply interfaces) *)

Record MinimapBounds (num : Type) : Type := {
  ymin : num;
  xmin : num;
  ymax : num;
  xmax : num
}.

Record PlayerPosition (num : Type) : Type := {
  team : string;
  agentGuess : option string;
  x : num;
  y : num
}.

Record AnalysisResult (num : Type) : Type := {
  mapName : string;
  minimapBounds : MinimapBounds num;
  players : list (PlayerPosition num);
  summary : string
}.

Inductive ModelProvider : Type := gemini | openai.

Module Raw.

Record RawAgentDetection (num : Type) : Type := {
  team : string;
  agentGuess : option string;
  boundingBox : MinimapBounds num
}.

Record RawAnalysisResponse (num : Type) : Type := {
  mapName : string;
  minimapLocation : option (MinimapBounds num);
  detectedIcons : list (RawAgentDetection num);
  summary : string
}.

End Raw.

(** [array.filter(p => p !== null)] on the result of a [map] whose
    callback returns [T | null]. *)
Fixpoint filterNotNull {A : Type} (l : list (option A)) : list A :=
  match l with
  | [] => []
  | None :: l' => filterNotNull l'
  | Some p :: l' => p :: filterNotNull l'
  end.

(** JavaScript truthiness of an optional string: [undefined], [null] and
    the empty string are falsy. *)
Definition truthy (s : option string) : bool :=
  match s with
  | None => false
  | Some s => negb (String.eqb s EmptyString)
  end.

(** How a call of a service can fail.  The services rethrow whatever
    their [try] block raised (after logging it to the console, which is
    not represented). *)
Inductive AnalysisError : Type :=
| MissingApiKey                 (* "Missing OpenAI API Key ..." *)
| ApiError (message : string)   (* "OpenAI API Error: ..." *)
| NoContent                     (* "No content received from OpenAI" *)
| NoText                        (* "No text response from Gemini" *)
| Rejected.                     (* the awaited call or JSON.parse threw *)

Definition Outcome (A : Type) : Type := (AnalysisError + A)%type.

(** ** [services/geminiService.ts], the revision taking [manualBounds] *)

Module Gemini.
Section Service.
Context {num : Type} `{JSNumber num}.
Local Open Scope js_scope.
Local Open Scope bool_scope.

(** [let mapBox; if (manualBounds) ... else if (rawData.minimapLocation)
    ... else ...]: the rectangle used for the minimap. *)
Definition mapBox (rawData : Raw.RawAnalysisResponse num)
    (manualBounds : option (MinimapBounds num)) : MinimapBounds num :=
  match manualBounds with
  | Some bounds => bounds
  | None =>
      match Raw.minimapLocation rawData with
      | Some location => location
      | None => {| xmin := lit 0; ymin := lit 0; xmax := lit 200; ymax := lit 200 |}
      end
  end.

Definition mapWidth (mapBox : MinimapBounds num) : num := xmax mapBox - xmin mapBox.
Definition mapHeight (mapBox : MinimapBounds num) : num := ymax mapBox - ymin mapBox.

Definition iconCenterY (icon : Raw.RawAgentDetection num) : num :=
  (ymin (Raw.boundingBox icon) + ymax (Raw.boundingBox icon)) / lit 2.

Definition iconCenterX (icon : Raw.RawAgentDetection num) : num :=
  (xmin (Raw.boundingBox icon) + xmax (Raw.boundingBox icon)) / lit 2.

Definition isInside (mapBox : MinimapBounds num) (icon : Raw.RawAgentDetection num) : bool :=
  (iconCenterX icon >=? xmin mapBox) &&
  (iconCenterX icon <=? xmax mapBox) &&
  (iconCenterY icon >=? ymin mapBox) &&
  (iconCenterY icon <=? ymax mapBox).

Definition relX (mapBox : MinimapBounds num) (icon : Raw.RawAgentDetection num) : num :=
  ((iconCenterX icon - xmin mapBox) / mapWidth mapBox) * lit 100.

Definition relY (mapBox : MinimapBounds num) (icon : Raw.RawAgentDetection num) : num :=
  ((iconCenterY icon - ymin mapBox) / mapHeight mapBox) * lit 100.

(** [Math.max(0, Math.min(100, v))] *)
Definition clamp (v : num) : num := mathMax (lit 0) (mathMin (lit 100) v).

(** The callback given to [detectedIcons.map]; [None] is its [null]. *)
Definition toPlayer (mapBox : MinimapBounds num) (icon : Raw.RawAgentDetection num)
    : option (PlayerPosition num) :=
  if negb (isInside mapBox icon) then None
  else Some {| team := Raw.team icon;
               agentGuess := Raw.agentGuess icon;
               x := clamp (relX mapBox icon);
               y := clamp (relY mapBox icon) |}.

(** Everything between [JSON.parse] and the [return]. *)
Definition postProcess (rawData : Raw.RawAnalysisResponse num)
    (manualBounds : option (MinimapBounds num)) : AnalysisResult num :=
  let mapBox := mapBox rawData manualBounds in
  let players := filterNotNull (map (toPlayer mapBox) (Raw.detectedIcons rawData)) in
  {| mapName := Raw.mapName rawData;
     minimapBounds := mapBox;
     players := players;
     summary := Raw.summary rawData |}.

(** What [genAI.models.generateContent] resolved to. *)
Record GenerateContentResponse : Type := { text : option string }.

(** [JSON.parse] on the texts whose value has the shape of
    [RawAnalysisResponse], [None] on the texts that are not JSON. *)
Variable JSON_parse : string -> option (Raw.RawAnalysisResponse num).

(** [analyzeValorantScreenshot(base64Image, manualBounds)].  The awaited
    provider call is an input: [None] when it rejected.  The cast [as
    RawAnalysisResponse] is not checked by the code: what the service
    does with a reply of another shape is in
    [Untyped.Gemini.analyzeValorantScreenshot]. *)
Definition analyzeValorantScreenshot (response : option GenerateContentResponse)
    (manualBounds : option (MinimapBounds num)) : Outcome (AnalysisResult num) :=
  match response with
  | None => inl Rejected
  | Some response =>
      if truthy (text response) then
        match text response with
        | Some t =>
            match JSON_parse t with
            | Some rawData => inr (postProcess rawData manualBounds)
            | None => inl Rejected
            end
        | None => inl NoText
        end
      else inl NoText
  end.

End Service.
End Gemini.

(** ** [services/openaiService.ts] *)

Module OpenAI.
Section Service.
Context {num : Type} `{JSNumber num}.
Local Open Scope js_scope.
Local Open Scope bool_scope.

Definition mapBox (rawData : Raw.RawAnalysisResponse num)
    (manualBounds : option (MinimapBounds num)) : MinimapBounds num :=
  match manualBounds with
  | Some bounds => bounds
  | None =>
      match Raw.minimapLocation rawData with
      | Some location => location
      | None => {| xmin := lit 0; ymin := lit 0; xmax := lit 200; ymax := lit 200 |}
      end
  end.

Definition mapWidth (mapBox : MinimapBounds num) : num := xmax mapBox - xmin mapBox.
Definition mapHeight (mapBox : MinimapBounds num) : num := ymax mapBox - ymin mapBox.

Definition iconCenterY (icon : Raw.RawAgentDetection num) : num :=
  (ymin (Raw.boundingBox icon) + ymax (Raw.boundingBox icon)) / lit 2.

Definition iconCenterX (icon : Raw.RawAgentDetection num) : num :=
  (xmin (Raw.boundingBox icon) + xmax (Raw.boundingBox icon)) / lit 2.

Definition isInside (mapBox : MinimapBounds num) (icon : Raw.RawAgentDetection num) : bool :=
  (iconCenterX icon >=? xmin mapBox) &&
  (iconCenterX icon <=? xmax mapBox) &&
  (iconCenterY icon >=? ymin mapBox) &&
  (iconCenterY icon <=? ymax mapBox).

Definition relX (mapBox : MinimapBounds num) (icon : Raw.RawAgentDetection num) : num :=
  ((iconCenterX icon - xmin mapBox) / mapWidth mapBox) * lit 100.

Definition relY (mapBox : MinimapBounds num) (icon : Raw.RawAgentDetection num) : num :=
  ((iconCenterY icon - ymin mapBox) / mapHeight mapBox) * lit 100.

Definition clamp (v : num) : num := mathMax (lit 0) (mathMin (lit 100) v).

Definition toPlayer (mapBox : MinimapBounds num) (icon : Raw.RawAgentDetection num)
    : option (PlayerPosition num) :=
  if negb (isInside mapBox icon) then None
  else Some {| team := Raw.team icon;
               agentGuess := Raw.agentGuess icon;
               x := clamp (relX mapBox icon);
               y := clamp (relY mapBox icon) |}.

Definition postProcess (rawData : Raw.RawAnalysisResponse num)
    (manualBounds : option (MinimapBounds num)) : AnalysisResult num :=
  let mapBox := mapBox rawData manualBounds in
  let players := filterNotNull (map (toPlayer mapBox) (Raw.detectedIcons rawData)) in
  {| mapName := Raw.mapName rawData;
     minimapBounds := mapBox;
     players := players;
     summary := Raw.summary rawData |}.

(** What [fetch] resolved to, as far as the service reads it:
    [response.ok], [response.statusText], [errData.error?.message] of an
    error body, and [data.choices[0]?.message?.content].  This is the
    reading on a response whose body [response.json()] could read, with
    an error message and a content that are strings or absent; every
    other response (a body that is not JSON, that is [null] or has no
    [choices]) is read in [Untyped.OpenAI]. *)
Record Response : Type := {
  ok : bool;
  statusText : string;
  errorMessage : option string;
  content : option string
}.

(** [JSON.parse] on the texts whose value has the shape of
    [RawAnalysisResponse], [None] on the texts that are not JSON. *)
Variable JSON_parse : string -> option (Raw.RawAnalysisResponse num).

(** [analyzeWithOpenAI(base64Image, manualBounds)], given the value of
    [process.env.OPENAI_API_KEY] and what the awaited [fetch] gave
    ([None] when it rejected).  The cast [as RawAnalysisResponse] is not
    checked by the code: what the service does with a reply of another
    shape is in [Untyped.OpenAI.analyzeWithOpenAI]. *)
Definition analyzeWithOpenAI (apiKey : option string) (response : option Response)
    (manualBounds : option (MinimapBounds num)) : Outcome (AnalysisResult num) :=
  if negb (truthy apiKey) then inl MissingApiKey
  else
    match response with
    | None => inl Rejected
    | Some response =>
        if negb (ok response) then
          inl (ApiError (if truthy (errorMessage response)
                         then match errorMessage response with
                              | Some m => m
                              | None => statusText response
                              end
                         else statusText response))
        else if negb (truthy (content response)) then inl NoContent
        else
          match content response with
          | Some c =>
              match JSON_parse c with
              | Some rawData => inr (postProcess rawData manualBounds)
              | None => inl Rejected
              end
          | None => inl NoContent
          end
    end.

End Service.
End OpenAI.


(** ** Earlier states of [services/geminiService.ts]

    The repository carries two more states of the Gemini service.  Both
    export [analyzeValorantScreenshot(base64Image)] with one parameter,
    where [App.tsx] calls [analyzeValorantScreenshot(base64Data,
    bounds)]. *)

(** The first state, the file [src/services/geminiService.ts] itself,
    asks the model for percentages and returns the parsed reply as the
    result: [return JSON.parse(response.text) as AnalysisResult].  On a
    reply that has the shape of [AnalysisResult]: *)
Module GeminiFirst.

Definition postProcess {num : Type} (reply : AnalysisResult num) : AnalysisResult num :=
  reply.

End GeminiFirst.

(** The second state scales in code, always against the reply's
    [minimapLocation], a required field there. *)
Module GeminiSecond.
Section Service.
Context {num : Type} `{JSNumber num}.
Local Open Scope js_scope.
Local Open Scope bool_scope.

Record RawAnalysisResponse : Type := {
  mapName : string;
  minimapLocation : MinimapBounds num;
  detectedIcons : list (Raw.RawAgentDetection num);
  summary : string
}.

Definition toPlayer (mapBox : MinimapBounds num) (icon : Raw.RawAgentDetection num)
    : option (PlayerPosition num) :=
  let mapWidth := xmax mapBox - xmin mapBox in
  let mapHeight := ymax mapBox - ymin mapBox in
  let iconCenterY := (ymin (Raw.boundingBox icon) + ymax (Raw.boundingBox icon)) / lit 2 in
  let iconCenterX := (xmin (Raw.boundingBox icon) + xmax (Raw.boundingBox icon)) / lit 2 in
  let isInside :=
    (iconCenterX >=? xmin mapBox) &&
    (iconCenterX <=? xmax mapBox) &&
    (iconCenterY >=? ymin mapBox) &&
    (iconCenterY <=? ymax mapBox) in
  if negb isInside then None
  else
    let relX := ((iconCenterX - xmin mapBox) / mapWidth) * lit 100 in
    let relY := ((iconCenterY - ymin mapBox) / mapHeight) * lit 100 in
    Some {| team := Raw.team icon;
            agentGuess := Raw.agentGuess icon;
            x := mathMax (lit 0) (mathMin (lit 100) relX);
            y := mathMax (lit 0) (mathMin (lit 100) relY) |}.

Definition postProcess (rawData : RawAnalysisResponse) : AnalysisResult num :=
  let mapBox := minimapLocation rawData in
  let players := filterNotNull (map (toPlayer mapBox) (detectedIcons rawData)) in
  Build_AnalysisResult (mapName rawData) mapBox players (summary rawData).

(** The same reply in the later interface, where the field is optional. *)
Definition later (rawData : RawAnalysisResponse) : Raw.RawAnalysisResponse num :=
  {| Raw.mapName := mapName rawData;
     Raw.minimapLocation := Some (minimapLocation rawData);
     Raw.detectedIcons := detectedIcons rawData;
     Raw.summary := summary rawData |}.

End Service.
End GeminiSecond.
(** ** The two services side by side

    [types.ts] names the providers ([ModelProvider]); the definitions
    below select a service's own code by that tag, so that a statement
    quantified over the provider speaks about both services. *)

Section Providers.
Context {num : Type} `{JSNumber num}.

Definition mapBoxOf (provider : ModelProvider) :=
  match provider with
  | gemini => Gemini.mapBox (num:=num)
  | openai => OpenAI.mapBox (num:=num)
  end.

Definition isInsideOf (provider : ModelProvider) :=
  match provider with
  | gemini => Gemini.isInside (num:=num)
  | openai => OpenAI.isInside (num:=num)
  end.

Definition toPlayerOf (provider : ModelProvider) :=
  match provider with
  | gemini => Gemini.toPlayer (num:=num)
  | openai => OpenAI.toPlayer (num:=num)
  end.

(** [rawData.detectedIcons.map(...).filter(p => p !== null)] for a given
    rectangle. *)
Definition playersOf (provider : ModelProvider) (mapBox : MinimapBounds num)
    (icons : list (Raw.RawAgentDetection num)) : list (PlayerPosition num) :=
  filterNotNull (map (toPlayerOf provider mapBox) icons).

Definition postProcessOf (provider : ModelProvider) :=
  match provider with
  | gemini => Gemini.postProcess (num:=num)
  | openai => OpenAI.postProcess (num:=num)
  end.

(** The vocabulary of the specification: the centre of a detection's
    bounding box, the inclusive containment test, the unclamped ratios
    and the clamp. *)
Definition jle (a b : num) : Prop := leb a b = true.

Definition cx (icon : Raw.RawAgentDetection num) : num :=
  div (add (xmin (Raw.boundingBox icon)) (xmax (Raw.boundingBox icon))) (lit 2).

Definition cy (icon : Raw.RawAgentDetection num) : num :=
  div (add (ymin (Raw.boundingBox icon)) (ymax (Raw.boundingBox icon))) (lit 2).

Definition centerWithin (mapBox : MinimapBounds num) (icon : Raw.RawAgentDetection num) : Prop :=
  (jle (xmin mapBox) (cx icon) /\ jle (cx icon) (xmax mapBox)) /\
  (jle (ymin mapBox) (cy icon) /\ jle (cy icon) (ymax mapBox)).

Definition ratioX (mapBox : MinimapBounds num) (icon : Raw.RawAgentDetection num) : num :=
  mul (div (sub (cx icon) (xmin mapBox)) (sub (xmax mapBox) (xmin mapBox))) (lit 100).

Definition ratioY (mapBox : MinimapBounds num) (icon : Raw.RawAgentDetection num) : num :=
  mul (div (sub (cy icon) (ymin mapBox)) (sub (ymax mapBox) (ymin mapBox))) (lit 100).

Definition clamp100 (v : num) : num := mathMax (lit 0) (mathMin (lit 100) v).

(** The [PlayerPosition] the specification assigns to a kept detection. *)
Definition positionOf (mapBox : MinimapBounds num) (icon : Raw.RawAgentDetection num)
    : PlayerPosition num :=
  {| team := Raw.team icon;
     agentGuess := Raw.agentGuess icon;
     x := clamp100 (ratioX mapBox icon);
     y := clamp100 (ratioY mapBox icon) |}.

(** A reply with its [minimapLocation] replaced. *)
Definition withLocation (rawData : Raw.RawAnalysisResponse num)
    (location : option (MinimapBounds num)) : Raw.RawAnalysisResponse num :=
  {| Raw.mapName := Raw.mapName rawData;
     Raw.minimapLocation := location;
     Raw.detectedIcons := Raw.detectedIcons rawData;
     Raw.summary := Raw.summary rawData |}.

Definition defaultMapBox : MinimapBounds num :=
  {| xmin := lit 0; ymin := lit 0; xmax := lit 200; ymax := lit 200 |}.

(** One call of a service, with everything it read from outside its
    arguments: the API key of the environment and what the provider
    answered. *)
Inductive Run : Type :=
| GeminiRun (response : option Gemini.GenerateContentResponse)
| OpenAIRun (apiKey : option string) (response : option OpenAI.Response).

Definition providerOf (run : Run) : ModelProvider :=
  match run with
  | GeminiRun _ => gemini
  | OpenAIRun _ _ => openai
  end.

Variable JSON_parse : string -> option (Raw.RawAnalysisResponse num).

Definition analyze (run : Run) (manualBounds : option (MinimapBounds num))
    : Outcome (AnalysisResult num) :=
  match run with
  | GeminiRun response => Gemini.analyzeValorantScreenshot JSON_parse response manualBounds
  | OpenAIRun apiKey response => OpenAI.analyzeWithOpenAI JSON_parse apiKey response manualBounds
  end.

(** The reply text of a run, and the raw response it parses to. *)
Definition replyText (run : Run) : option string :=
  match run with
  | GeminiRun (Some response) => Gemini.text response
  | OpenAIRun _ (Some response) => OpenAI.content response
  | _ => None
  end.

Definition parsedReply (run : Run) : option (Raw.RawAnalysisResponse num) :=
  match replyText run with
  | Some t => JSON_parse t
  | None => None
  end.

End Providers.

(** ** [components/MinimapSelector.tsx]: the drag-to-select state machine *)

Module MinimapSelector.
Section Selector.
Context {num : Type} `{JSNumber num}.
Local Open Scope js_scope.
Local Open Scope bool_scope.

(** A mouse position on the image, as [getMousePos] returns it (already
    on the 0-1000 scale). *)
Record Pos : Type := { x : num; y : num }.

(** The four [useState] cells of the component. *)
Record State : Type := {
  isDragging : bool;
  startPos : option Pos;
  currentPos : option Pos;
  selection : option (MinimapBounds num)
}.

Definition initialState : State :=
  {| isDragging := false; startPos := None; currentPos := None; selection := None |}.

(** The mount effect: [if (!selection) setSelection({0, 0, 250, 250})]. *)
Definition defaultSuggestion (s : State) : State :=
  match selection s with
  | Some _ => s
  | None =>
      {| isDragging := isDragging s;
         startPos := startPos s;
         currentPos := currentPos s;
         selection := Some {| xmin := lit 0; ymin := lit 0; xmax := lit 250; ymax := lit 250 |} |}
  end.

Definition handleMouseDown (pos : Pos) (s : State) : State :=
  {| isDragging := true;
     startPos := Some pos;
     currentPos := Some pos;
     selection := None |}.

Definition handleMouseMove (pos : Pos) (s : State) : State :=
  match isDragging s, startPos s with
  | true, Some _ =>
      {| isDragging := isDragging s;
         startPos := startPos s;
         currentPos := Some pos;
         selection := selection s |}
  | _, _ => s
  end.

Definition handleMouseUp (s : State) : State :=
  match isDragging s, startPos s, currentPos s with
  | true, Some startPos, Some currentPos =>
      let newSelection :=
        {| xmin := mathMin (x startPos) (x currentPos);
           ymin := mathMin (y startPos) (y currentPos);
           xmax := mathMax (x startPos) (x currentPos);
           ymax := mathMax (y startPos) (y currentPos) |} in
      {| isDragging := false;
         startPos := None;
         currentPos := None;
         selection :=
           if (xmax newSelection - xmin newSelection >? lit 20) &&
              (ymax newSelection - ymin newSelection >? lit 20)
           then Some newSelection
           else selection s |}
  | _, _, _ => s
  end.

(** What a click on "Confirm & Analyze" passes to [onConfirm]:
    [selection && onConfirm(selection)]. *)
Definition confirm (s : State) : option (MinimapBounds num) := selection s.

Inductive Event : Type :=
| Mounted
| MouseDown (pos : Pos)
| MouseMove (pos : Pos)
| MouseUp
| MouseLeave
| ClickConfirm.

Definition step (s : State) (e : Event) : State :=
  match e with
  | Mounted => defaultSuggestion s
  | MouseDown pos => handleMouseDown pos s
  | MouseMove pos => handleMouseMove pos s
  | MouseUp | MouseLeave => handleMouseUp s
  | ClickConfirm => s
  end.

(** The state after a sequence of events on a fresh component. *)
Definition stateAfter (events : list Event) : State :=
  fold_left step events initialState.

End Selector.
End MinimapSelector.

(** ** Sample inputs *)

Section Samples.
Context {num : Type} `{JSNumber num}.
Local Open Scope string_scope.

Definition rect (x0 y0 x1 y1 : Z) : MinimapBounds num :=
  {| ymin := lit y0; xmin := lit x0; ymax := lit y1; xmax := lit x1 |}.

Definition detection (team : string) (x0 y0 x1 y1 : Z) : Raw.RawAgentDetection num :=
  {| Raw.team := team; Raw.agentGuess := None; Raw.boundingBox := rect x0 y0 x1 y1 |}.

(** The end-to-end scenario of the specification. *)
Definition havenReply : Raw.RawAnalysisResponse num :=
  {| Raw.mapName := "Haven";
     Raw.minimapLocation := Some (rect 0 0 200 200);
     Raw.detectedIcons := [detection "Red" 50 50 70 70; detection "Blue" 900 900 920 920];
     Raw.summary := "s" |}.

(** A reply whose [minimapLocation] has no width, with one icon centred
    on it. *)
Definition zeroWidthReply : Raw.RawAnalysisResponse num :=
  {| Raw.mapName := "Haven";
     Raw.minimapLocation := Some (rect 100 100 100 300);
     Raw.detectedIcons := [detection "Red" 90 190 110 210];
     Raw.summary := "s" |}.

(** A reply without [minimapLocation]. *)
Definition noLocationReply : Raw.RawAnalysisResponse num :=
  {| Raw.mapName := "Bind";
     Raw.minimapLocation := None;
     Raw.detectedIcons := [detection "Blue" 190 0 210 20; detection "Red" 300 10 320 30];
     Raw.summary := "" |}.

(** A parser for two reply texts that denote the same object. *)
Definition sampleParse (t : string) : option (Raw.RawAnalysisResponse num) :=
  if String.eqb t "{haven}" then Some havenReply
  else if String.eqb t " {haven} " then Some havenReply
  else None.

(** Two OpenAI calls that differ in everything but the object their
    reply denotes. *)
Definition sampleRun1 : Run :=
  OpenAIRun (Some "sk-first")
    (Some {| OpenAI.ok := true; OpenAI.statusText := "OK";
             OpenAI.errorMessage := None; OpenAI.content := Some "{haven}" |}).

Definition sampleRun2 : Run :=
  OpenAIRun (Some "sk-second")
    (Some {| OpenAI.ok := true; OpenAI.statusText := "";
             OpenAI.errorMessage := Some "ignored"; OpenAI.content := Some " {haven} " |}).

(** Mount, then one drag from (100,100) to (400,380). *)
Definition sampleDrag : list MinimapSelector.Event :=
  [MinimapSelector.Mounted;
   MinimapSelector.MouseDown {| MinimapSelector.x := lit 100; MinimapSelector.y := lit 100 |};
   MinimapSelector.MouseMove {| MinimapSelector.x := lit 400; MinimapSelector.y := lit 380 |};
   MinimapSelector.MouseUp].

(** Mount, then a click without a drag. *)
Definition sampleClick : list MinimapSelector.Event :=
  [MinimapSelector.Mounted;
   MinimapSelector.MouseDown {| MinimapSelector.x := lit 100; MinimapSelector.y := lit 100 |};
   MinimapSelector.MouseUp].

End Samples.

(** ** Finiteness in the exact model *)

Definition isFin (a : number) : bool :=
  match a with
  | Fin _ => true
  | _ => false
  end.

(** A rectangle of exact arithmetic: four finite coordinates. *)
Definition finiteRect (b : MinimapBounds number) : bool :=
  isFin (xmin b) && isFin (ymin b) && isFin (xmax b) && isFin (ymax b).

(** Membership in [[0,100]], with the comparison of the code. *)
Definition inPercentRange {num : Type} `{JSNumber num} (v : num) : Prop :=
  jle (lit 0) v /\ jle v (lit 100).

(** ** The selector's invariant *)

(** The selection is either absent, the default suggestion, or a drag
    wider and higher than 20. *)
Definition wideEnough (b : MinimapBounds number) : Prop :=
  gtb (sub (xmax b) (xmin b)) (lit 20) = true /\
  gtb (sub (ymax b) (ymin b)) (lit 20) = true.

Definition selectionInvariant (s : MinimapSelector.State (num:=number)) : Prop :=
  forall b,
    MinimapSelector.selection s = Some b ->
    b = rect 0 0 250 250 \/ wideEnough b.

(** ** [components/MinimapSelector.tsx]: from the mouse to the 0-1000 scale *)

From Stdlib Require Import Qround.

(** [getMousePos] also needs [Math.round]. *)
Class JSRound (num : Type) : Type := {
  mathRound : num -> num           (* Math.round(a) *)
}.

(** [Math.round] goes to the nearest integer, a half going up; it leaves
    the infinities and [NaN] as they are. *)
Definition nround (a : number) : number :=
  match a with
  | Fin q => Fin (inject_Z (Qfloor (q + (1 # 2))))
  | other => other
  end.

#[export] Instance exactRound : JSRound number := {
  mathRound := nround
}.

Module Pointer.
Section Pointer.
Context {num : Type} `{JSNumber num} `{JSRound num}.
Local Open Scope js_scope.

(** What [imgRef.current.getBoundingClientRect()] gives, as far as it is
    read. *)
Record DOMRect : Type := {
  left : num;
  top : num;
  width : num;
  height : num
}.

Record MouseEvent : Type := {
  clientX : num;
  clientY : num
}.

(** [getMousePos(e)]; [rect] is [None] when [imgRef.current] or
    [containerRef.current] is missing. *)
Definition getMousePos (rect : option DOMRect) (e : MouseEvent) : MinimapSelector.Pos :=
  match rect with
  | None => {| MinimapSelector.x := lit 0; MinimapSelector.y := lit 0 |}
  | Some rect =>
      let x := mathMax (lit 0) (mathMin (clientX e - left rect) (width rect)) in
      let y := mathMax (lit 0) (mathMin (clientY e - top rect) (height rect)) in
      let scaleX := lit 1000 / width rect in
      let scaleY := lit 1000 / height rect in
      {| MinimapSelector.x := mathRound (x * scaleX);
         MinimapSelector.y := mathRound (y * scaleY) |}
  end.

End Pointer.
End Pointer.

(** Finite positions, events and states of the selector (exact model). *)
Definition finitePos (p : MinimapSelector.Pos (num:=number)) : bool :=
  isFin (MinimapSelector.x p) && isFin (MinimapSelector.y p).

Definition finiteEvent (e : MinimapSelector.Event (num:=number)) : bool :=
  match e with
  | MinimapSelector.MouseDown p | MinimapSelector.MouseMove p => finitePos p
  | _ => true
  end.

(** A finite rectangle with positive width and height. *)
Definition properRect (b : MinimapBounds number) : Prop :=
  finiteRect b = true /\
  gtb (xmax b) (xmin b) = true /\
  gtb (ymax b) (ymin b) = true.

(** An image box of finite position and positive finite size. *)
Definition visibleRect (r : Pointer.DOMRect (num:=number)) : Prop :=
  isFin (Pointer.left r) = true /\ isFin (Pointer.top r) = true /\
  isFin (Pointer.width r) = true /\ isFin (Pointer.height r) = true /\
  gtb (Pointer.width r) (lit 0) = true /\ gtb (Pointer.height r) (lit 0) = true.

(** A whole drag on top of a state: press at [p], move through [moves],
    release. *)
Definition drag {num : Type} `{JSNumber num}
    (p : MinimapSelector.Pos) (moves : list MinimapSelector.Pos)
    (s : MinimapSelector.State) : MinimapSelector.State :=
  MinimapSelector.handleMouseUp
    (fold_left (fun s m => MinimapSelector.handleMouseMove m s) moves
               (MinimapSelector.handleMouseDown p s)).

(** The rectangle spanned by two positions. *)
Definition spanOf {num : Type} `{JSNumber num}
    (p q : MinimapSelector.Pos) : MinimapBounds num :=
  {| xmin := mathMin (MinimapSelector.x p) (MinimapSelector.x q);
     ymin := mathMin (MinimapSelector.y p) (MinimapSelector.y q);
     xmax := mathMax (MinimapSelector.x p) (MinimapSelector.x q);
     ymax := mathMax (MinimapSelector.y p) (MinimapSelector.y q) |}.

(** ** Strings of the user interface

    A [string] is a sequence of bytes.  [toLowerCase] is modelled on the
    ASCII letters only, which is what JavaScript does on a string of ASCII
    characters; the properties about it are stated for such strings. *)

Section Strings.
Local Open Scope string_scope.

Definition lowerChar (c : Ascii.ascii) : Ascii.ascii :=
  let n := Ascii.nat_of_ascii c in
  if Nat.leb 65 n && Nat.leb n 90 then Ascii.ascii_of_nat (n + 32) else c.

(** [s.toLowerCase()] *)
Fixpoint toLowerCase (s : string) : string :=
  match s with
  | EmptyString => EmptyString
  | String c s' => String (lowerChar c) (toLowerCase s')
  end.

Definition isAsciiChar (c : Ascii.ascii) : bool := Nat.ltb (Ascii.nat_of_ascii c) 128.

Fixpoint isAscii (s : string) : bool :=
  match s with
  | EmptyString => true
  | String c s' => isAsciiChar c && isAscii s'
  end.

(** [s.includes(t)] *)
Fixpoint includes (s t : string) : bool :=
  String.prefix t s ||
  match s with
  | EmptyString => false
  | String _ s' => includes s' t
  end.

(** [s.startsWith(t)] *)
Definition startsWith (s t : string) : bool := String.prefix t s.

Definition space : Ascii.ascii := Ascii.ascii_of_nat 32.
Definition comma : Ascii.ascii := Ascii.ascii_of_nat 44.

(** [s.split(sep)] for a separator of one character. *)
Fixpoint split (sep : Ascii.ascii) (s : string) : list string :=
  match s with
  | EmptyString => [EmptyString]
  | String c s' =>
      if Ascii.eqb c sep then EmptyString :: split sep s'
      else
        match split sep s' with
        | piece :: pieces => String c piece :: pieces
        | [] => [String c EmptyString]
        end
  end.

(** No occurrence of a character. *)
Fixpoint lacks (sep : Ascii.ascii) (s : string) : bool :=
  match s with
  | EmptyString => true
  | String c s' => negb (Ascii.eqb c sep) && lacks sep s'
  end.

End Strings.

(** ** [components/AnalysisVisualizer.tsx] *)

Module AnalysisVisualizer.
Section Visualizer.
Local Open Scope string_scope.

(** [getTeamColor(team)]: the dot's classes, by keyword. *)
Definition getTeamColor (team : string) : string :=
  let t := toLowerCase team in
  if includes t "red" || includes t "attack" then "bg-[#ff4655] ring-[#ff4655]"
  else if includes t "blue" || includes t "cyan" || includes t "defend"
       then "bg-[#00e5bf] ring-[#00e5bf]"
  else if includes t "green" then "bg-green-500 ring-green-500"
  else if includes t "yellow" then "bg-yellow-400 ring-yellow-400"
  else "bg-white ring-white".

End Visualizer.
End AnalysisVisualizer.

(** ** The image part of the requests *)

Section Requests.
Local Open Scope string_scope.

(** [services/openaiService.ts]: [url: `data:image/png;base64,${base64Image}`] *)
Definition openaiImageUrl (base64Image : string) : string :=
  "data:image/png;base64," ++ base64Image.

(** [services/geminiService.ts]:
    [inlineData: { mimeType: "image/png", data: base64Image }] *)
Definition geminiInlineData (base64Image : string) : string * string :=
  ("image/png", base64Image).

End Requests.

(** ** [App.tsx]: the screens *)

Module App.
Section App.
(** [result] is the type of what the service resolves to, [failure] of
    what it throws.  The service's promise is typed [AnalysisResult],
    but [src/services/geminiService.ts] resolves with the unchecked
    value of [JSON.parse], so [App] can be handed any value, [null]
    included; it stores what it gets. *)
Context {result failure : Type}.
Local Open Scope string_scope.

Inductive AppState : Type := IDLE | CROP | ANALYZING | SUCCESS | ERROR.

(** The four [useState] cells of [App]; [analysisData] is [None] until
    [setAnalysisData(result)] ran. *)
Record State : Type := {
  state : AppState;
  imageSrc : option string;
  analysisData : option result;
  errorMsg : string
}.

Definition initialState : State :=
  {| state := IDLE; imageSrc := None; analysisData := None; errorMsg := "" |}.

(** [handleFileChange], up to [reader.readAsDataURL(file)]: a file whose
    type does not start with [image/] only sets the message. *)
Definition handleFileChange (fileType : string) (s : State) : State :=
  if negb (startsWith fileType "image/") then
    {| state := state s; imageSrc := imageSrc s; analysisData := analysisData s;
       errorMsg := "Please upload a valid image file." |}
  else s.

(** [reader.onloadend]; [result] is [reader.result]. *)
Definition onloadend (result : option string) (s : State) : State :=
  {| state := CROP; imageSrc := result; analysisData := analysisData s; errorMsg := "" |}.

(** [imageSrc.split(',')[1]] *)
Definition base64Data (imageSrc : string) : option string :=
  nth_error (split comma imageSrc) 1.

(** [handleConfirmCrop], up to the [await]. *)
Definition handleConfirmCrop (s : State) : State :=
  if negb (truthy (imageSrc s)) then s
  else {| state := ANALYZING; imageSrc := imageSrc s; analysisData := analysisData s;
          errorMsg := errorMsg s |}.

(** [handleConfirmCrop], after the [await]: the [try] and the [catch]. *)
Definition settled (outcome : failure + result) (s : State) : State :=
  match outcome with
  | inr result =>
      {| state := SUCCESS; imageSrc := imageSrc s; analysisData := Some result;
         errorMsg := errorMsg s |}
  | inl _ =>
      {| state := ERROR; imageSrc := imageSrc s; analysisData := analysisData s;
         errorMsg := "Failed to analyze the image. Please try a clearer screenshot." |}
  end.

Definition handleReset (s : State) : State := initialState.

Inductive Event : Type :=
| FileChosen (fileType : string)
| LoadEnd (result : option string)
| ConfirmCrop
| Settled (outcome : failure + result)
| Reset.

Definition step (s : State) (e : Event) : State :=
  match e with
  | FileChosen fileType => handleFileChange fileType s
  | LoadEnd result => onloadend result s
  | ConfirmCrop => handleConfirmCrop s
  | Settled outcome => settled outcome s
  | Reset => handleReset s
  end.

Definition stateAfter (events : list Event) : State :=
  fold_left step events initialState.

End App.
End App.

(** ** Vocabulary of the further properties *)

(** A label mentions a keyword when some part of it is the keyword up to
    the case of its letters. *)
Definition mentions (label keyword : string) : Prop :=
  exists before word after,
    label = (before ++ word ++ after)%string /\ toLowerCase word = keyword.

(** The last position of a drag: the last move, or the press point when
    the mouse did not move. *)
Definition releasePoint {num : Type}
    (p : MinimapSelector.Pos (num:=num)) (moves : list (MinimapSelector.Pos (num:=num)))
    : MinimapSelector.Pos (num:=num) :=
  last moves p.

(** The size test of [handleMouseUp]. *)
Definition bigEnough {num : Type} `{JSNumber num} (b : MinimapBounds num) : bool :=
  (gtb (sub (xmax b) (xmin b)) (lit 20)) && (gtb (sub (ymax b) (ymin b)) (lit 20)).

(** The selector holds finite numbers only. *)
Definition finiteState (s : MinimapSelector.State (num:=number)) : Prop :=
  (forall p, MinimapSelector.startPos s = Some p -> finitePos p = true) /\
  (forall p, MinimapSelector.currentPos s = Some p -> finitePos p = true) /\
  (forall b, MinimapSelector.selection s = Some b ->
             finiteRect b = true /\ (b = rect 0 0 250 250 \/ wideEnough b)).

(** A number that is zero. *)
Definition isZeroNumber (a : number) : bool :=
  match a with
  | Fin q => isZero q
  | _ => false
  end.

(** A coordinate as [getMousePos] returns them: a whole number from 0
    to 1000. *)
Definition onScale (a : number) : bool :=
  match a with
  | Fin q => Pos.eqb (Qden q) 1 && Z.leb 0 (Qnum q) && Z.leb (Qnum q) 1000
  | _ => false
  end.

Definition scalePos (p : MinimapSelector.Pos (num:=number)) : bool :=
  onScale (MinimapSelector.x p) && onScale (MinimapSelector.y p).

Definition scaleEvent (e : MinimapSelector.Event (num:=number)) : bool :=
  match e with
  | MinimapSelector.MouseDown p | MinimapSelector.MouseMove p => scalePos p
  | _ => true
  end.

Definition scaleRect (b : MinimapBounds number) : bool :=
  onScale (xmin b) && onScale (ymin b) && onScale (xmax b) && onScale (ymax b).

(** The selector holds coordinates of the scale only. *)
Definition scaleState (s : MinimapSelector.State (num:=number)) : Prop :=
  (forall p, MinimapSelector.startPos s = Some p -> scalePos p = true) /\
  (forall p, MinimapSelector.currentPos s = Some p -> scalePos p = true) /\
  (forall b, MinimapSelector.selection s = Some b -> scaleRect b = true).

(** What the error and the analysing screens of [App] rely on. *)
Definition screensHaveData {result : Type} (s : App.State (result:=result)) : Prop :=
  (App.state s = App.ERROR -> App.errorMsg s <> EmptyString) /\
  (App.state s = App.ANALYZING -> truthy (App.imageSrc s) = true).

(** * The services on the replies as they arrive

    [JSON.parse] returns a value of any shape, and the services cast it
    to their reply interface without a check ([as RawAnalysisResponse],
    [as AnalysisResult]).  The modules [Gemini] and [OpenAI] above read
    the services on the replies that have the shape of the interface.
    The modules below read them on every value: with the property reads
    and the call of [map] that throw a [TypeError], with the coercions of
    [+ - * /] and of the comparisons, and with every awaited call. *)

(** What a [throw] carries. *)
Inductive Thrown : Type :=
| MissingKey                     (* Error("Missing OpenAI API Key ...") *)
| ApiFailure (message : string)  (* Error(`OpenAI API Error: ${message}`) *)
| NoContentReceived              (* Error("No content received from OpenAI") *)
| NoTextResponse                 (* Error("No text response from Gemini") *)
| SyntaxError                    (* JSON.parse or response.json() on what is not JSON *)
| TypeError                      (* a property of undefined or null; a call of no function *)
| Rejection.                     (* fetch, generateContent or the reading of a body failed *)

(** A computation that returns or throws; the services rethrow what
    their [try] block threw. *)
Definition Completion (A : Type) : Type := (Thrown + A)%type.

Definition andThen {A B : Type} (m : Completion A) (k : A -> Completion B) : Completion B :=
  match m with
  | inl thrown => inl thrown
  | inr a => k a
  end.

Declare Scope completion_scope.
Delimit Scope completion_scope with completion.
Notation "x <- m ;; k" := (andThen m (fun x => k))
  (at level 61, m at next level, right associativity) : completion_scope.

(** An awaited promise: [None] when it rejected. *)
Definition awaited {A : Type} (promise : option A) : Completion A :=
  match promise with
  | Some a => inr a
  | None => inl Rejection
  end.

(** [array.map(f)] with a callback that can throw. *)
Fixpoint mapThrowing {A B : Type} (f : A -> Completion B) (l : list A) : Completion (list B) :=
  match l with
  | [] => inr []
  | a :: l' =>
      match f a with
      | inl thrown => inl thrown
      | inr b =>
          match mapThrowing f l' with
          | inl thrown => inl thrown
          | inr bs => inr (b :: bs)
          end
      end
  end.

(** ** Values *)

Module JS.

(** The values [JSON.parse] returns, and [undefined], which reading an
    absent property gives.  An object lists its own properties, each name
    once. *)
#[local] Unset Elimination Schemes.

Inductive value (num : Type) : Type :=
| VUndefined
| VNull
| VBoolean (b : bool)
| VNumber (n : num)
| VString (s : string)
| VArray (items : list (value num))
| VObject (properties : list (string * value num)).

#[local] Set Elimination Schemes.

Arguments VUndefined {num}.
Arguments VNull {num}.
Arguments VBoolean {num} b.
Arguments VNumber {num} n.
Arguments VString {num} s.
Arguments VArray {num} items.
Arguments VObject {num} properties.

Section Operators.
Context {num : Type} `{JSNumber num}.
Local Open Scope string_scope.
Local Open Scope bool_scope.

Definition nullish (v : value num) : bool :=
  match v with
  | VUndefined | VNull => true
  | _ => false
  end.

(** ToBoolean: [undefined], [null], [false], [0], [NaN] and the empty
    string are falsy. *)
Definition ToBoolean (v : value num) : bool :=
  match v with
  | VUndefined | VNull => false
  | VBoolean b => b
  | VNumber n => ltb n (lit 0) || ltb (lit 0) n
  | VString s => negb (String.eqb s "")
  | VArray _ | VObject _ => true
  end.

Fixpoint ownProperty (key : string) (properties : list (string * value num)) : value num :=
  match properties with
  | [] => VUndefined
  | (k, v) :: rest => if String.eqb key k then v else ownProperty key rest
  end.

(** [v.key] on a value that is neither [undefined] nor [null], for the
    names the services read ([mapName], [boundingBox], [choices], ...):
    none of them is a property of a prototype, so only an object has
    them. *)
Definition field (v : value num) (key : string) : value num :=
  match v with
  | VObject properties => ownProperty key properties
  | _ => VUndefined
  end.

(** [v.key] *)
Definition get (v : value num) (key : string) : Completion (value num) :=
  if nullish v then inl TypeError else inr (field v key).

(** [v?.key] *)
Definition getOptional (v : value num) (key : string) : Completion (value num) :=
  if nullish v then inr VUndefined else get v key.

(** [v[0]] on a value that is neither [undefined] nor [null]: the first
    item of an array, the first unit of a string, the property [0] of an
    object. *)
Definition firstItem (v : value num) : value num :=
  match v with
  | VArray items => hd VUndefined items
  | VString (String c _) => VString (String c "")
  | VObject properties => ownProperty "0" properties
  | _ => VUndefined
  end.

(** [v[0]] *)
Definition first (v : value num) : Completion (value num) :=
  if nullish v then inl TypeError else inr (firstItem v).

(** ToNumber and ToString.  What they give on a value of another type
    (the number a string denotes, the text of a number, of an array, ...)
    is left open. *)
Variable toNumberOther : value num -> num.
Variable toStringOther : value num -> string.

Definition ToNumber (v : value num) : num :=
  match v with
  | VNumber n => n
  | _ => toNumberOther v
  end.

Definition ToString (v : value num) : string :=
  match v with
  | VString s => s
  | _ => toStringOther v
  end.

(** ToPrimitive gives a string. *)
Definition stringLike (v : value num) : bool :=
  match v with
  | VString _ | VArray _ | VObject _ => true
  | _ => false
  end.

(** [a + b]: concatenation as soon as one side is a string, an array or
    an object. *)
Definition plus (a b : value num) : value num :=
  if stringLike a || stringLike b then VString (ToString a ++ ToString b)
  else VNumber (add (ToNumber a) (ToNumber b)).

(** A [MinimapBounds] object of the caller. *)
Definition ofBounds (bounds : MinimapBounds num) : value num :=
  VObject [("ymin", VNumber (ymin bounds)); ("xmin", VNumber (xmin bounds));
           ("ymax", VNumber (ymax bounds)); ("xmax", VNumber (xmax bounds))].

(** *** The values that have the shape of an interface *)

Definition asNumber (v : value num) : option num :=
  match v with
  | VNumber n => Some n
  | _ => None
  end.

Definition asString (v : value num) : option string :=
  match v with
  | VString s => Some s
  | _ => None
  end.

(** [agentGuess?: string] *)
Definition asOptionalString (v : value num) : option (option string) :=
  match v with
  | VUndefined => Some None
  | VString s => Some (Some s)
  | _ => None
  end.

Definition asBounds (v : value num) : option (MinimapBounds num) :=
  match asNumber (field v "ymin"), asNumber (field v "xmin"),
        asNumber (field v "ymax"), asNumber (field v "xmax") with
  | Some y0, Some x0, Some y1, Some x1 =>
      Some {| ymin := y0; xmin := x0; ymax := y1; xmax := x1 |}
  | _, _, _, _ => None
  end.

(** [minimapLocation?: {...}]; a [null] counts as absent. *)
Definition asOptionalBounds (v : value num) : option (option (MinimapBounds num)) :=
  match v with
  | VUndefined | VNull => Some None
  | _ => option_map Some (asBounds v)
  end.

Fixpoint allSome {A : Type} (l : list (option A)) : option (list A) :=
  match l with
  | [] => Some []
  | None :: _ => None
  | Some a :: l' => option_map (cons a) (allSome l')
  end.

Definition asDetection (v : value num) : option (Raw.RawAgentDetection num) :=
  match asString (field v "team"), asOptionalString (field v "agentGuess"),
        asBounds (field v "boundingBox") with
  | Some team, Some agentGuess, Some boundingBox =>
      Some {| Raw.team := team; Raw.agentGuess := agentGuess;
              Raw.boundingBox := boundingBox |}
  | _, _, _ => None
  end.

Definition asRawResponse (v : value num) : option (Raw.RawAnalysisResponse num) :=
  match asString (field v "mapName"), asOptionalBounds (field v "minimapLocation"),
        field v "detectedIcons", asString (field v "summary") with
  | Some mapName, Some minimapLocation, VArray icons, Some summary =>
      option_map
        (fun detectedIcons =>
           {| Raw.mapName := mapName; Raw.minimapLocation := minimapLocation;
              Raw.detectedIcons := detectedIcons; Raw.summary := summary |})
        (allSome (map asDetection icons))
  | _, _, _, _ => None
  end.

Definition asPlayer (v : value num) : option (PlayerPosition num) :=
  match asString (field v "team"), asOptionalString (field v "agentGuess"),
        asNumber (field v "x"), asNumber (field v "y") with
  | Some team, Some agentGuess, Some x, Some y =>
      Some {| team := team; agentGuess := agentGuess; x := x; y := y |}
  | _, _, _, _ => None
  end.

Definition asResult (v : value num) : option (AnalysisResult num) :=
  match asString (field v "mapName"), asBounds (field v "minimapBounds"),
        field v "players", asString (field v "summary") with
  | Some mapName, Some minimapBounds, VArray items, Some summary =>
      option_map
        (fun players =>
           {| mapName := mapName; minimapBounds := minimapBounds;
              players := players; summary := summary |})
        (allSome (map asPlayer items))
  | _, _, _, _ => None
  end.

(** *** The replies the post-processing gets through *)



End Operators.
End JS.

(** ** The services *)

Module Untyped.

(** *** [services/openaiService.ts] *)

Module OpenAI.
Section Service.
Context {num : Type} `{JSNumber num}.
Local Open Scope string_scope.
Local Open Scope bool_scope.
Local Open Scope js_scope.
Local Open Scope completion_scope.

Variable toNumberOther : JS.value num -> num.
Variable toStringOther : JS.value num -> string.
Variable JSON_parse : string -> option (JS.value num).

Local Abbreviation ToNumber := (JS.ToNumber toNumberOther).
Local Abbreviation ToString := (JS.ToString toStringOther).
Local Abbreviation plus := (JS.plus toNumberOther toStringOther).

(** [let mapBox; if (manualBounds) ... else if (rawData.minimapLocation)
    ... else ...] *)
Definition mapBox (rawData : JS.value num) (manualBounds : option (MinimapBounds num))
    : Completion (JS.value num) :=
  match manualBounds with
  | Some bounds => inr (JS.ofBounds bounds)
  | None =>
      location <- JS.get rawData "minimapLocation" ;;
      if JS.ToBoolean location then inr location
      else inr (JS.VObject [("xmin", JS.VNumber (lit 0)); ("ymin", JS.VNumber (lit 0));
                            ("xmax", JS.VNumber (lit 200)); ("ymax", JS.VNumber (lit 200))])
  end.

(** [mapBox] is an object of the caller, a truthy value of the reply or
    the default object: its properties are read with [JS.field]. *)
Definition mapWidth (mapBox : JS.value num) : num :=
  ToNumber (JS.field mapBox "xmax") - ToNumber (JS.field mapBox "xmin").

Definition mapHeight (mapBox : JS.value num) : num :=
  ToNumber (JS.field mapBox "ymax") - ToNumber (JS.field mapBox "ymin").

(** The callback given to [detectedIcons.map]; [None] is its [null]. *)
Definition toPlayer (mapBox : JS.value num) (icon : JS.value num)
    : Completion (option (JS.value num)) :=
  boundingBox <- JS.get icon "boundingBox" ;;
  ymin <- JS.get boundingBox "ymin" ;;
  ymax <- JS.get boundingBox "ymax" ;;
  let iconCenterY := ToNumber (plus ymin ymax) / lit 2 in
  xmin <- JS.get boundingBox "xmin" ;;
  xmax <- JS.get boundingBox "xmax" ;;
  let iconCenterX := ToNumber (plus xmin xmax) / lit 2 in
  let isInside :=
    (iconCenterX >=? ToNumber (JS.field mapBox "xmin")) &&
    (iconCenterX <=? ToNumber (JS.field mapBox "xmax")) &&
    (iconCenterY >=? ToNumber (JS.field mapBox "ymin")) &&
    (iconCenterY <=? ToNumber (JS.field mapBox "ymax")) in
  if negb isInside then inr None
  else
    let relX := ((iconCenterX - ToNumber (JS.field mapBox "xmin")) / mapWidth mapBox) * lit 100 in
    let relY := ((iconCenterY - ToNumber (JS.field mapBox "ymin")) / mapHeight mapBox) * lit 100 in
    inr (Some (JS.VObject
                 [("team", JS.field icon "team");
                  ("agentGuess", JS.field icon "agentGuess");
                  ("x", JS.VNumber (mathMax (lit 0) (mathMin (lit 100) relX)));
                  ("y", JS.VNumber (mathMax (lit 0) (mathMin (lit 100) relY)))])).

(** Everything between [JSON.parse] and the [return]. *)
Definition postProcess (rawData : JS.value num) (manualBounds : option (MinimapBounds num))
    : Completion (JS.value num) :=
  mapBox <- mapBox rawData manualBounds ;;
  detectedIcons <- JS.get rawData "detectedIcons" ;;
  match detectedIcons with
  | JS.VArray icons =>
      mapped <- mapThrowing (toPlayer mapBox) icons ;;
      inr (JS.VObject
             [("mapName", JS.field rawData "mapName");
              ("minimapBounds", mapBox);
              ("players", JS.VArray (filterNotNull mapped));
              ("summary", JS.field rawData "summary")])
  | _ => inl TypeError
  end.

(** What [fetch] resolved to; [body] is the text of the body, [None]
    when reading it fails. *)
Record Response : Type := {
  ok : bool;
  statusText : string;
  body : option string
}.

(** [await response.json()]: the body read and parsed as JSON. *)
Definition json (response : Response) : Completion (JS.value num) :=
  text <- awaited (body response) ;;
  match JSON_parse text with
  | None => inl SyntaxError
  | Some v => inr v
  end.

(** [data.choices[0]?.message?.content] *)
Definition contentOf (data : JS.value num) : Completion (JS.value num) :=
  choices <- JS.get data "choices" ;;
  choice <- JS.first choices ;;
  message <- JS.getOptional choice "message" ;;
  JS.getOptional message "content".

(** The value [data.choices[0]?.message?.content] has when reading it
    does not throw. *)
Definition messageContent (data : JS.value num) : JS.value num :=
  JS.field (JS.field (JS.firstItem (JS.field data "choices")) "message") "content".

(** [errData.error?.message || response.statusText], as the template
    literal prints it. *)
Definition errorText (errData : JS.value num) (statusText : string) : Completion string :=
  error <- JS.get errData "error" ;;
  message <- JS.getOptional error "message" ;;
  inr (if JS.ToBoolean message then ToString message else statusText).

(** [analyzeWithOpenAI(base64Image, manualBounds)]; [apiKey] is
    [process.env.OPENAI_API_KEY], [fetched] what [fetch] resolved to,
    [None] when it rejected. *)
Definition analyzeWithOpenAI (apiKey : option string) (fetched : option Response)
    (manualBounds : option (MinimapBounds num)) : Completion (JS.value num) :=
  if negb (truthy apiKey) then inl MissingKey
  else
    response <- awaited fetched ;;
    if negb (ok response) then
      errData <- json response ;;
      text <- errorText errData (statusText response) ;;
      inl (ApiFailure text)
    else
      data <- json response ;;
      content <- contentOf data ;;
      if negb (JS.ToBoolean content) then inl NoContentReceived
      else
        match JSON_parse (ToString content) with
        | None => inl SyntaxError
        | Some rawData => postProcess rawData manualBounds
        end.

End Service.
End OpenAI.

(** *** [services/geminiService.ts], the revision taking [manualBounds] *)

Module Gemini.
Section Service.
Context {num : Type} `{JSNumber num}.
Local Open Scope string_scope.
Local Open Scope bool_scope.
Local Open Scope js_scope.
Local Open Scope completion_scope.

Variable toNumberOther : JS.value num -> num.
Variable toStringOther : JS.value num -> string.
Variable JSON_parse : string -> option (JS.value num).

Local Abbreviation ToNumber := (JS.ToNumber toNumberOther).
Local Abbreviation plus := (JS.plus toNumberOther toStringOther).

Definition mapBox (rawData : JS.value num) (manualBounds : option (MinimapBounds num))
    : Completion (JS.value num) :=
  match manualBounds with
  | Some bounds => inr (JS.ofBounds bounds)
  | None =>
      location <- JS.get rawData "minimapLocation" ;;
      if JS.ToBoolean location then inr location
      else inr (JS.VObject [("xmin", JS.VNumber (lit 0)); ("ymin", JS.VNumber (lit 0));
                            ("xmax", JS.VNumber (lit 200)); ("ymax", JS.VNumber (lit 200))])
  end.

Definition mapWidth (mapBox : JS.value num) : num :=
  ToNumber (JS.field mapBox "xmax") - ToNumber (JS.field mapBox "xmin").

Definition mapHeight (mapBox : JS.value num) : num :=
  ToNumber (JS.field mapBox "ymax") - ToNumber (JS.field mapBox "ymin").

Definition toPlayer (mapBox : JS.value num) (icon : JS.value num)
    : Completion (option (JS.value num)) :=
  boundingBox <- JS.get icon "boundingBox" ;;
  ymin <- JS.get boundingBox "ymin" ;;
  ymax <- JS.get boundingBox "ymax" ;;
  let iconCenterY := ToNumber (plus ymin ymax) / lit 2 in
  xmin <- JS.get boundingBox "xmin" ;;
  xmax <- JS.get boundingBox "xmax" ;;
  let iconCenterX := ToNumber (plus xmin xmax) / lit 2 in
  let isInside :=
    (iconCenterX >=? ToNumber (JS.field mapBox "xmin")) &&
    (iconCenterX <=? ToNumber (JS.field mapBox "xmax")) &&
    (iconCenterY >=? ToNumber (JS.field mapBox "ymin")) &&
    (iconCenterY <=? ToNumber (JS.field mapBox "ymax")) in
  if negb isInside then inr None
  else
    let relX := ((iconCenterX - ToNumber (JS.field mapBox "xmin")) / mapWidth mapBox) * lit 100 in
    let relY := ((iconCenterY - ToNumber (JS.field mapBox "ymin")) / mapHeight mapBox) * lit 100 in
    inr (Some (JS.VObject
                 [("team", JS.field icon "team");
                  ("agentGuess", JS.field icon "agentGuess");
                  ("x", JS.VNumber (mathMax (lit 0) (mathMin (lit 100) relX)));
                  ("y", JS.VNumber (mathMax (lit 0) (mathMin (lit 100) relY)))])).

Definition postProcess (rawData : JS.value num) (manualBounds : option (MinimapBounds num))
    : Completion (JS.value num) :=
  mapBox <- mapBox rawData manualBounds ;;
  detectedIcons <- JS.get rawData "detectedIcons" ;;
  match detectedIcons with
  | JS.VArray icons =>
      mapped <- mapThrowing (toPlayer mapBox) icons ;;
      inr (JS.VObject
             [("mapName", JS.field rawData "mapName");
              ("minimapBounds", mapBox);
              ("players", JS.VArray (filterNotNull mapped));
              ("summary", JS.field rawData "summary")])
  | _ => inl TypeError
  end.

(** What [genAI.models.generateContent] resolved to; [text] is its
    [response.text], a string or [undefined]. *)
Record GenerateContentResponse : Type := { text : option string }.

(** [analyzeValorantScreenshot(base64Image, manualBounds)]; [generated]
    is what [generateContent] resolved to, [None] when it rejected. *)
Definition analyzeValorantScreenshot (generated : option GenerateContentResponse)
    (manualBounds : option (MinimapBounds num)) : Completion (JS.value num) :=
  response <- awaited generated ;;
  if truthy (text response) then
    match text response with
    | Some t =>
        match JSON_parse t with
        | None => inl SyntaxError
        | Some rawData => postProcess rawData manualBounds
        end
    | None => inl NoTextResponse
    end
  else inl NoTextResponse.

End Service.
End Gemini.

(** *** [services/geminiService.ts], the file in [src/services]

    [analyzeValorantScreenshot(base64Image)]: one parameter, and
    [return JSON.parse(response.text) as AnalysisResult]. *)

Module GeminiFirst.
Section Service.
Context {num : Type}.
Local Open Scope completion_scope.

Variable JSON_parse : string -> option (JS.value num).

Definition analyzeValorantScreenshot (generated : option Gemini.GenerateContentResponse)
    : Completion (JS.value num) :=
  response <- awaited generated ;;
  if truthy (Gemini.text response) then
    match Gemini.text response with
    | Some t =>
        match JSON_parse t with
        | None => inl SyntaxError
        | Some result => inr result
        end
    | None => inl NoTextResponse
    end
  else inl NoTextResponse.

End Service.
End GeminiFirst.

End Untyped.

(** ** A reply as a value *)

Section UntypedSamples.
Context {num : Type} `{JSNumber num}.
Local Open Scope string_scope.

Definition boxValue (x0 y0 x1 y1 : Z) : JS.value num :=
  JS.VObject [("ymin", JS.VNumber (lit y0)); ("xmin", JS.VNumber (lit x0));
              ("ymax", JS.VNumber (lit y1)); ("xmax", JS.VNumber (lit x1))].

Definition iconValue (team : string) (x0 y0 x1 y1 : Z) : JS.value num :=
  JS.VObject [("team", JS.VString team); ("boundingBox", boxValue x0 y0 x1 y1)].

(** [havenReply], as [JSON.parse] returns it. *)
Definition havenValue : JS.value num :=
  JS.VObject [("mapName", JS.VString "Haven");
              ("minimapLocation", boxValue 0 0 200 200);
              ("detectedIcons",
               JS.VArray [iconValue "Red" 50 50 70 70; iconValue "Blue" 900 900 920 920]);
              ("summary", JS.VString "s")].

(** A reply without [mapName] and [summary]. *)
Definition bareValue : JS.value num :=
  JS.VObject [("detectedIcons", JS.VArray [iconValue "Red" 50 50 70 70])].

(** A reply without [detectedIcons]. *)
Definition noIconsValue : JS.value num :=
  JS.VObject [("mapName", JS.VString "Haven"); ("summary", JS.VString "s")].

(** A chat completion whose first choice carries [content]. *)
Definition completionOf (content : string) : JS.value num :=
  JS.VObject
    [("choices",
      JS.VArray [JS.VObject [("message", JS.VObject [("content", JS.VString content)])]])].

(** A reply in the schema [src/services/geminiService.ts] asks for,
    with a player the model placed outside [[0,100]]. *)
Definition ownValue : JS.value num :=
  JS.VObject [("mapName", JS.VString "Haven");
              ("minimapBounds", boxValue 0 0 200 200);
              ("players",
               JS.VArray [JS.VObject [("team", JS.VString "Red");
                                      ("x", JS.VNumber (lit 150));
                                      ("y", JS.VNumber (lit 60))]]);
              ("summary", JS.VString "s")].

Definition ownReply : AnalysisResult num :=
  {| mapName := "Haven"; minimapBounds := rect 0 0 200 200;
     players := [{| team := "Red"; agentGuess := None; x := lit 150; y := lit 60 |}];
     summary := "s" |}.

(** A parser for the texts of the samples: [{haven}] stands for the
    text of [havenValue], [{own}] for the text of [ownValue], and
    [{completion:...}] for the text of the chat completion that
    carries one of them. *)
Definition parseValue (t : string) : option (JS.value num) :=
  if String.eqb t "{haven}" then Some havenValue
  else if String.eqb t "{own}" then Some ownValue
  else if String.eqb t "{completion:haven}" then Some (completionOf "{haven}")
  else if String.eqb t "{completion:own}" then Some (completionOf "{own}")
  else if String.eqb t "null" then Some JS.VNull
  else None.

End UntypedSamples.

(** ** The typed parser the untyped one gives

    The parser the modules [Gemini] and [OpenAI] take: [JSON.parse],
    kept for the texts whose value has the shape of the reply
    interface. *)
Definition typedParse {num : Type} (JSON_parse : string -> option (JS.value num))
    (t : string) : option (Raw.RawAnalysisResponse num) :=
  match JSON_parse t with
  | Some rawData => JS.asRawResponse rawData
  | None => None
  end.
(** * Properties

    ** Facts that hold for every interpretation of the numbers *)

Section Generic.
Context {num : Type} `{JSNumber num}.

Lemma filterNotNull_app (A : Type) (l1 l2 : list (option A)) :
  filterNotNull (l1 ++ l2) = filterNotNull l1 ++ filterNotNull l2.
Proof.
  induction l1 as [|[a|] l1 IH]; simpl; auto.
  now rewrite IH.
Qed.

Lemma filterNotNull_In (A : Type) (l : list (option A)) (a : A) :
  In a (filterNotNull l) <-> In (Some a) l.
Proof.
  induction l as [|[b|] l IH]; simpl.
  - tauto.
  - rewrite IH. split; intros [E|I]; auto; left; congruence.
  - rewrite IH. split; [auto | intros [E|I]; [discriminate | auto]].
Qed.

Lemma isInsideOf_spec (provider : ModelProvider) mapBox icon :
  isInsideOf provider mapBox icon = true <-> centerWithin mapBox icon.
Proof.
  destruct provider; cbn;
    [unfold Gemini.isInside, Gemini.iconCenterX, Gemini.iconCenterY
    |unfold OpenAI.isInside, OpenAI.iconCenterX, OpenAI.iconCenterY];
    unfold centerWithin, jle, cx, cy, geb;
    rewrite !andb_true_iff; tauto.
Qed.

Lemma toPlayerOf_inside (provider : ModelProvider) mapBox icon :
  isInsideOf provider mapBox icon = true ->
  toPlayerOf provider mapBox icon = Some (positionOf mapBox icon).
Proof.
  destruct provider; cbn; intros E;
    [unfold Gemini.toPlayer | unfold OpenAI.toPlayer]; rewrite E; reflexivity.
Qed.

Lemma toPlayerOf_outside (provider : ModelProvider) mapBox icon :
  isInsideOf provider mapBox icon = false ->
  toPlayerOf provider mapBox icon = None.
Proof.
  destruct provider; cbn; intros E;
    [unfold Gemini.toPlayer | unfold OpenAI.toPlayer]; rewrite E; reflexivity.
Qed.

Lemma postProcessOf_unfold (provider : ModelProvider) rawData manualBounds :
  postProcessOf provider rawData manualBounds =
  {| mapName := Raw.mapName rawData;
     minimapBounds := mapBoxOf provider rawData manualBounds;
     players := filterNotNull (map (toPlayerOf provider (mapBoxOf provider rawData manualBounds))
                                   (Raw.detectedIcons rawData));
     summary := Raw.summary rawData |}.
Proof. destruct provider; reflexivity. Qed.

(** The players of a list of detections: the kept ones, in order. *)
Lemma players_filter (provider : ModelProvider) mapBox icons :
  filterNotNull (map (toPlayerOf provider mapBox) icons) =
  map (positionOf mapBox) (filter (isInsideOf provider mapBox) icons).
Proof.
  induction icons as [|icon icons IH]; simpl; [reflexivity|].
  destruct (isInsideOf provider mapBox icon) eqn:E.
  - rewrite (toPlayerOf_inside _ _ _ E). simpl. now rewrite IH.
  - rewrite (toPlayerOf_outside _ _ _ E). exact IH.
Qed.

Lemma playersOf_app (provider : ModelProvider) mapBox l1 l2 :
  playersOf provider mapBox (l1 ++ l2) =
  playersOf provider mapBox l1 ++ playersOf provider mapBox l2.
Proof. unfold playersOf. now rewrite map_app, filterNotNull_app. Qed.

Lemma playersOf_cons_inside (provider : ModelProvider) mapBox icon icons :
  centerWithin mapBox icon ->
  playersOf provider mapBox (icon :: icons) =
  positionOf mapBox icon :: playersOf provider mapBox icons.
Proof.
  intros I. apply isInsideOf_spec with (provider := provider) in I.
  unfold playersOf. simpl. now rewrite (toPlayerOf_inside _ _ _ I).
Qed.

Lemma players_postProcessOf (provider : ModelProvider) rawData manualBounds :
  players (postProcessOf provider rawData manualBounds) =
  playersOf provider (mapBoxOf provider rawData manualBounds) (Raw.detectedIcons rawData).
Proof. now rewrite postProcessOf_unfold. Qed.

Lemma not_centerWithin (provider : ModelProvider) mapBox icon :
  ~ centerWithin mapBox icon <-> isInsideOf provider mapBox icon = false.
Proof.
  rewrite <- (isInsideOf_spec provider).
  destruct (isInsideOf provider mapBox icon); split; congruence.
Qed.

(** The second state of the Gemini service already computed what the
    later one computes when no manual bounds are given. *)
Lemma earlier_state_agrees (rawData : GeminiSecond.RawAnalysisResponse (num:=num)) :
  GeminiSecond.postProcess rawData =
  Gemini.postProcess (GeminiSecond.later rawData) None.
Proof. reflexivity. Qed.

(** *** The claims that do not depend on arithmetic *)

(** C1.  For every rectangle [mapBox] and every raw detection, either
    service keeps the detection (its [map] callback returns the position)
    if and only if the centre [cx = (xmin+xmax)/2], [cy = (ymin+ymax)/2]
    of its bounding box satisfies [mapBox.xmin <= cx <= mapBox.xmax] and
    [mapBox.ymin <= cy <= mapBox.ymax], both ends included; otherwise the
    callback returns [null] and the detection is left out of [players],
    with no error value involved.  So a position is among the players of
    a result exactly when it comes from a detection of the reply whose
    centre is within the resolved rectangle. *)
Theorem center_inclusion_test (provider : ModelProvider)
    (mapBox : MinimapBounds num) (icon : Raw.RawAgentDetection num) :
  (toPlayerOf provider mapBox icon = Some (positionOf mapBox icon)
     <-> centerWithin mapBox icon) /\
  (toPlayerOf provider mapBox icon = None <-> ~ centerWithin mapBox icon) /\
  (forall rawData manualBounds p,
      In p (players (postProcessOf provider rawData manualBounds)) <->
      exists icon', In icon' (Raw.detectedIcons rawData) /\
                    centerWithin (mapBoxOf provider rawData manualBounds) icon' /\
                    p = positionOf (mapBoxOf provider rawData manualBounds) icon').
Proof.
  split; [split | split; [split | intros rawData manualBounds p; split]].
  - intros E. apply (isInsideOf_spec provider).
    destruct (isInsideOf provider mapBox icon) eqn:I; [reflexivity|].
    rewrite (toPlayerOf_outside _ _ _ I) in E. discriminate.
  - intros I. apply toPlayerOf_inside, isInsideOf_spec, I.
  - intros E I. apply (isInsideOf_spec provider) in I.
    rewrite (toPlayerOf_inside _ _ _ I) in E. discriminate.
  - intros N. apply toPlayerOf_outside, not_centerWithin, N.
  - rewrite players_postProcessOf. unfold playersOf.
    rewrite players_filter, in_map_iff.
    intros (icon' & <- & I). apply filter_In in I. destruct I as [I1 I2].
    exists icon'. repeat split; auto; now apply (isInsideOf_spec provider).
  - rewrite players_postProcessOf. unfold playersOf.
    rewrite players_filter, in_map_iff.
    intros (icon' & I1 & I2 & ->). exists icon'. split; [reflexivity|].
    apply filter_In. split; [assumption|]. now apply isInsideOf_spec.
Qed.

(** C3.  When the caller supplies manual bounds, either service uses them
    unconditionally: the result's [minimapBounds] is the manual rectangle
    and the players are the detections filtered and scaled against it,
    whatever [minimapLocation] the reply carries (none, or any
    rectangle). *)
Theorem manual_bounds_take_precedence (provider : ModelProvider)
    (rawData : Raw.RawAnalysisResponse num) (manual : MinimapBounds num) :
  minimapBounds (postProcessOf provider rawData (Some manual)) = manual /\
  players (postProcessOf provider rawData (Some manual)) =
    playersOf provider manual (Raw.detectedIcons rawData) /\
  (forall location,
      postProcessOf provider (withLocation rawData location) (Some manual) =
      postProcessOf provider rawData (Some manual)).
Proof.
  split; [|split; [|intros location]]; destruct provider; reflexivity.
Qed.

(** C4.  With no manual bounds and no [minimapLocation] in the reply, the
    resolved rectangle is exactly [{xmin:0, ymin:0, xmax:200, ymax:200}]:
    it is the result's [minimapBounds] and the rectangle the detections
    are filtered and scaled against. *)
Theorem default_bounds_fallback (provider : ModelProvider)
    (rawData : Raw.RawAnalysisResponse num) :
  Raw.minimapLocation rawData = None ->
  mapBoxOf provider rawData None =
    {| ymin := lit 0; xmin := lit 0; ymax := lit 200; xmax := lit 200 |} /\
  minimapBounds (postProcessOf provider rawData None) =
    {| ymin := lit 0; xmin := lit 0; ymax := lit 200; xmax := lit 200 |} /\
  players (postProcessOf provider rawData None) =
    playersOf provider
      {| ymin := lit 0; xmin := lit 0; ymax := lit 200; xmax := lit 200 |}
      (Raw.detectedIcons rawData).
Proof.
  intros E. rewrite players_postProcessOf, postProcessOf_unfold. simpl.
  assert (M : mapBoxOf provider rawData None =
              {| ymin := lit 0; xmin := lit 0; ymax := lit 200; xmax := lit 200 |}).
  { destruct provider; cbn; [unfold Gemini.mapBox | unfold OpenAI.mapBox];
      rewrite E; reflexivity. }
  rewrite M. auto.
Qed.

(** C5.  For every rectangle and every sequence of detections, the
    players are the positions of the kept detections, one each, in the
    order of the input: the output is the image of the order-preserving
    sublist of kept detections, its length is the number of kept
    detections, and two kept detections [a] before [b] in the input give
    [positionOf a] before [positionOf b] in the output, with the players
    of the detections before, between and after them around. *)
Theorem players_one_per_kept_in_order (provider : ModelProvider)
    (mapBox : MinimapBounds num) (icons : list (Raw.RawAgentDetection num)) :
  playersOf provider mapBox icons =
    map (positionOf mapBox) (filter (isInsideOf provider mapBox) icons) /\
  List.length (playersOf provider mapBox icons) =
    List.length (filter (isInsideOf provider mapBox) icons) /\
  (forall l1 a l2 b l3,
      icons = l1 ++ a :: l2 ++ b :: l3 ->
      centerWithin mapBox a -> centerWithin mapBox b ->
      playersOf provider mapBox icons =
        playersOf provider mapBox l1 ++ positionOf mapBox a ::
        playersOf provider mapBox l2 ++ positionOf mapBox b ::
        playersOf provider mapBox l3) /\
  (forall rawData manualBounds,
      players (postProcessOf provider rawData manualBounds) =
      playersOf provider (mapBoxOf provider rawData manualBounds)
                (Raw.detectedIcons rawData)).
Proof.
  split; [apply players_filter|].
  split; [unfold playersOf; now rewrite players_filter, length_map|].
  split; [|intros; apply players_postProcessOf].
  intros l1 a l2 b l3 -> Ia Ib.
  rewrite playersOf_app, (playersOf_cons_inside _ _ Ia).
  now rewrite playersOf_app, (playersOf_cons_inside _ _ Ib).
Qed.

(** The OpenAI service and the Gemini service that takes manual bounds
    have one post-processing: on the same reply and the same optional
    manual bounds they return equal results. *)
Lemma typed_postProcess_same
    (rawData : Raw.RawAnalysisResponse num)
    (manualBounds : option (MinimapBounds num)) :
  OpenAI.postProcess rawData manualBounds = Gemini.postProcess rawData manualBounds /\
  (forall provider, postProcessOf provider rawData manualBounds =
                    Gemini.postProcess rawData manualBounds).
Proof.
  split; [reflexivity|]. intros []; reflexivity.
Qed.

(** C10.  The normalization changes only geometry: the result's [mapName]
    and [summary] are the reply's, every kept detection's [team] and
    [agentGuess] pass unchanged into its position ([agentGuess] absent
    when it was absent), and the result's rectangle is one of the manual
    bounds, the reply's [minimapLocation] and the default, never a
    computed one. *)
Theorem only_geometry_is_computed (provider : ModelProvider)
    (rawData : Raw.RawAnalysisResponse num)
    (manualBounds : option (MinimapBounds num)) :
  mapName (postProcessOf provider rawData manualBounds) = Raw.mapName rawData /\
  summary (postProcessOf provider rawData manualBounds) = Raw.summary rawData /\
  map (fun p => (team p, agentGuess p))
      (players (postProcessOf provider rawData manualBounds)) =
    map (fun icon => (Raw.team icon, Raw.agentGuess icon))
        (filter (isInsideOf provider (minimapBounds (postProcessOf provider rawData manualBounds)))
                (Raw.detectedIcons rawData)) /\
  (forall mapBox icon p,
      toPlayerOf provider mapBox icon = Some p ->
      team p = Raw.team icon /\ agentGuess p = Raw.agentGuess icon) /\
  (manualBounds = Some (minimapBounds (postProcessOf provider rawData manualBounds)) \/
   Raw.minimapLocation rawData =
     Some (minimapBounds (postProcessOf provider rawData manualBounds)) \/
   minimapBounds (postProcessOf provider rawData manualBounds) = defaultMapBox).
Proof.
  rewrite postProcessOf_unfold. simpl.
  split; [reflexivity|]. split; [reflexivity|]. split; [|split].
  - rewrite players_filter, map_map. reflexivity.
  - intros mapBox icon p E.
    destruct (isInsideOf provider mapBox icon) eqn:I.
    + rewrite (toPlayerOf_inside _ _ _ I) in E. injection E as <-. now split.
    + rewrite (toPlayerOf_outside _ _ _ I) in E. discriminate.
  - destruct provider; cbn; [unfold Gemini.mapBox | unfold OpenAI.mapBox];
      destruct manualBounds; auto; destruct (Raw.minimapLocation rawData); auto.
Qed.

(** A service returns a result only after parsing a reply, and the
    result is then the post-processing of that reply. *)
Lemma analyze_success JSON_parse (run : Run) manualBounds r :
  analyze JSON_parse run manualBounds = inr r ->
  exists rawData,
    parsedReply JSON_parse run = Some rawData /\
    r = postProcessOf (providerOf run) rawData manualBounds.
Proof.
  unfold parsedReply.
  destruct run as [[[t]|]|apiKey [[ok status message t]|]]; simpl;
    unfold Gemini.analyzeValorantScreenshot, OpenAI.analyzeWithOpenAI; simpl.
  - destruct (truthy t); [|discriminate].
    destruct t as [t|]; [|discriminate].
    destruct (JSON_parse t) as [rawData|]; [|discriminate].
    intros E. injection E as <-. now exists rawData.
  - discriminate.
  - destruct (truthy apiKey); simpl; [|discriminate].
    destruct ok; simpl; [|discriminate].
    destruct (truthy t); simpl; [|discriminate].
    destruct t as [t|]; [|discriminate].
    destruct (JSON_parse t) as [rawData|]; [|discriminate].
    intros E. injection E as <-. now exists rawData.
  - destruct (truthy apiKey); discriminate.
Qed.

(** And it does return one whenever the provider answered with a
    non-empty text that parses (for OpenAI: with a key in the environment
    and an ok status). *)
Lemma analyze_returns JSON_parse (run : Run) manualBounds t rawData :
  replyText run = Some t -> t <> EmptyString -> JSON_parse t = Some rawData ->
  match run with
  | GeminiRun _ => True
  | OpenAIRun apiKey response =>
      truthy apiKey = true /\ option_map OpenAI.ok response = Some true
  end ->
  analyze JSON_parse run manualBounds =
  inr (postProcessOf (providerOf run) rawData manualBounds).
Proof.
  intros T N P.
  assert (Tr : truthy (Some t) = true).
  { simpl. destruct (String.eqb_spec t EmptyString); [contradiction|reflexivity]. }
  destruct run as [[[t']|]|apiKey [[ok status message t']|]]; simpl in *;
    try discriminate; subst.
  - intros _. unfold Gemini.analyzeValorantScreenshot. simpl.
    rewrite Tr, P. reflexivity.
  - intros [K O]. injection O as ->.
    unfold OpenAI.analyzeWithOpenAI. rewrite K. simpl.
    rewrite Tr, P. reflexivity.
Qed.

(** C7.  The normalization is a function of the raw response and the
    optional manual bounds alone: two calls of the services that parsed
    the same raw response and were given the same manual bounds return
    identical results (same [minimapBounds], same [players] in the same
    order with the same coordinates, same [mapName] and [summary]),
    whatever else differed between them: the API key of the environment,
    the status line, the text of the reply. *)
Theorem normalization_is_deterministic
    (JSON_parse : string -> option (Raw.RawAnalysisResponse num))
    (rawData : Raw.RawAnalysisResponse num)
    (manualBounds : option (MinimapBounds num))
    (run1 run2 : Run) (r1 r2 : AnalysisResult num) :
  parsedReply JSON_parse run1 = Some rawData ->
  parsedReply JSON_parse run2 = Some rawData ->
  analyze JSON_parse run1 manualBounds = inr r1 ->
  analyze JSON_parse run2 manualBounds = inr r2 ->
  r1 = r2 /\
  minimapBounds r1 = minimapBounds r2 /\
  players r1 = players r2 /\
  mapName r1 = mapName r2 /\
  summary r1 = summary r2 /\
  r1 = Gemini.postProcess rawData manualBounds.
Proof.
  intros P1 P2 A1 A2.
  apply analyze_success in A1. destruct A1 as (raw1 & Q1 & ->).
  apply analyze_success in A2. destruct A2 as (raw2 & Q2 & ->).
  assert (raw1 = rawData) by congruence.
  assert (raw2 = rawData) by congruence.
  subst raw1 raw2.
  assert (E : forall p, postProcessOf p rawData manualBounds =
                        Gemini.postProcess rawData manualBounds)
    by (intros []; reflexivity).
  rewrite !E. repeat split.
Qed.

End Generic.

(** ** Facts of exact arithmetic *)

Section Exact.
Import MinimapSelector.

Lemma nleb_Fin (p q : Q) : nleb (Fin p) (Fin q) = true <-> (p <= q)%Q.
Proof. simpl. apply Qle_bool_iff. Qed.

Lemma nltb_Fin (p q : Q) : nltb (Fin p) (Fin q) = true <-> (p < q)%Q.
Proof.
  simpl. rewrite negb_true_iff, <- not_true_iff_false, Qle_bool_iff.
  split; [apply Qnot_le_lt | apply Qlt_not_le].
Qed.

Lemma isZero_spec (q : Q) : isZero q = true <-> (q == 0)%Q.
Proof.
  unfold isZero, Qeq. rewrite Z.eqb_eq. simpl. lia.
Qed.

(** A number between two finite numbers is finite. *)
Lemma between_finite (a b : Q) (c : number) :
  nleb (Fin a) c = true -> nleb c (Fin b) = true ->
  exists q, c = Fin q /\ (a <= q <= b)%Q.
Proof.
  destruct c as [q| | |]; simpl; try discriminate.
  rewrite !Qle_bool_iff. intros L U. now exists q.
Qed.

Lemma Qred_idem (q : Q) : Qred (Qred q) = Qred q.
Proof. apply Qred_complete, Qred_correct. Qed.

(** Values in lowest terms are equal as soon as they are equal as
    fractions. *)
Lemma Qred_eq_canon (p q : Q) : (Qred p == q)%Q -> Qred q = q -> Qred p = q.
Proof.
  intros E C. rewrite <- C. rewrite <- (Qred_idem p).
  now apply Qred_complete.
Qed.

(** The ratio of a centre within a non-degenerate finite span. *)
Lemma ratio_in_range (a b c : Q) :
  (a < b)%Q -> (a <= c <= b)%Q ->
  exists r,
    nmul (ndiv (nsub (Fin c) (Fin a)) (nsub (Fin b) (Fin a))) (Fin (inject_Z 100)) = Fin r /\
    (0 <= r <= 100)%Q /\ Qred r = r.
Proof.
  intros W [L U].
  assert (Wp : (0 < Qred (b + - a))%Q) by (rewrite Qred_correct; lra).
  assert (Z0 : isZero (Qred (b + - a)) = false).
  { apply not_true_iff_false. rewrite isZero_spec. intros E. rewrite E in Wp.
    now apply Qlt_irrefl in Wp. }
  exists (Qred (Qred (Qred (c + - a) / Qred (b + - a)) * inject_Z 100)).
  split; [unfold nsub, nadd, neg, ndiv, fin; rewrite Z0; reflexivity|].
  split; [|apply Qred_idem].
  rewrite !Qred_correct. rewrite Qred_correct in Wp.
  assert (Q0 : (0 <= (c + - a) / (b + - a))%Q)
    by (apply Qle_shift_div_l; [assumption | lra]).
  assert (Q1 : ((c + - a) / (b + - a) <= 1)%Q)
    by (apply Qle_shift_div_r; [assumption | lra]).
  change (inject_Z 100) with 100%Q.
  set (k := ((c + - a) / (b + - a))%Q) in *. clearbody k. split; lra.
Qed.

(** The clamp leaves a value of [[0,100]] in lowest terms as it is. *)
Lemma clamp100_id (r : Q) :
  (0 <= r <= 100)%Q -> Qred r = r -> clamp100 (Fin r) = Fin r.
Proof.
  intros [L U] C. unfold clamp100. cbn.
  destruct (Qle_bool (inject_Z 100) r) eqn:E.
  - apply Qle_bool_iff in E. change (inject_Z 100) with 100%Q in E.
    assert (R : r = 100%Q).
    { rewrite <- C. apply Qred_eq_canon; [|reflexivity].
      rewrite Qred_correct. apply Qle_antisym; assumption. }
    subst r. reflexivity.
  - cbn. replace (Qle_bool (inject_Z 0) r) with true; [reflexivity|].
    symmetry. apply Qle_bool_iff. exact L.
Qed.

(** Whatever is not [NaN] is clamped into [[0,100]]. *)
Lemma clamp100_range (v : number) :
  v <> NaN -> inPercentRange (clamp100 v).
Proof.
  intros N. unfold inPercentRange, jle, clamp100. cbn.
  destruct v as [q| | |]; try contradiction; cbn.
  - destruct (Qle_bool (inject_Z 100) q) eqn:E; cbn.
    + split; reflexivity.
    + destruct (Qle_bool (inject_Z 0) q) eqn:F; cbn.
      * split; [exact F|]. apply Qle_bool_iff.
        apply not_true_iff_false in E. rewrite Qle_bool_iff in E.
        apply Qlt_le_weak, Qnot_le_lt, E.
      * split; reflexivity.
  - split; reflexivity.
  - split; reflexivity.
Qed.

(** [NaN] goes through the clamp and is not in [[0,100]]. *)
Lemma clamp100_NaN : clamp100 NaN = NaN /\ ~ inPercentRange NaN.
Proof.
  split; [reflexivity|]. intros [L _]. discriminate L.
Qed.

(** A difference above 20 is a positive difference. *)
Lemma above_20_positive (a b : number) :
  nltb (Fin (inject_Z 20)) (nsub a b) = true -> nltb b a = true.
Proof.
  destruct a as [p| | |], b as [q| | |];
    try discriminate; try reflexivity.
  unfold nsub, neg, nadd, fin. rewrite !nltb_Fin, Qred_correct.
  change (inject_Z 20) with 20%Q. lra.
Qed.

End Exact.

(** ** The claims that depend on arithmetic (exact model) *)

Section ExactClaims.

(** One axis of the scaling: a centre [c] within a finite span
    [[a, b]] with [a < b]. *)
Lemma axis_ratio (a b : Q) (c : number) :
  nltb (Fin a) (Fin b) = true ->
  nleb (Fin a) c = true -> nleb c (Fin b) = true ->
  let v := nmul (ndiv (nsub c (Fin a)) (nsub (Fin b) (Fin a))) (Fin (inject_Z 100)) in
  inPercentRange v /\ clamp100 v = v.
Proof.
  intros W L U v.
  apply nltb_Fin in W.
  destruct (between_finite _ _ _ L U) as (q & -> & B).
  destruct (ratio_in_range W B) as (r & E & R & C).
  unfold v. rewrite E. split.
  - split; apply Qle_bool_iff; apply R.
  - now apply clamp100_id.
Qed.

(** C9.  Under exact arithmetic (a rectangle of four finite numbers)
    with [xmax > xmin] and [ymax > ymin], every detection whose centre
    passes the inclusion test has unclamped ratios
    [(cx - xmin)/(xmax - xmin)*100] and [(cy - ymin)/(ymax - ymin)*100]
    in [[0,100]] already, so the clamp returns them unchanged and the
    emitted position carries the ratios themselves. *)
Theorem clamp_is_identity_on_kept
    (mapBox : MinimapBounds number) (icon : Raw.RawAgentDetection number) :
  finiteRect mapBox = true ->
  gtb (xmax mapBox) (xmin mapBox) = true ->
  gtb (ymax mapBox) (ymin mapBox) = true ->
  centerWithin mapBox icon ->
  inPercentRange (ratioX mapBox icon) /\
  inPercentRange (ratioY mapBox icon) /\
  clamp100 (ratioX mapBox icon) = ratioX mapBox icon /\
  clamp100 (ratioY mapBox icon) = ratioY mapBox icon /\
  (forall provider,
      toPlayerOf provider mapBox icon =
      Some {| team := Raw.team icon;
              agentGuess := Raw.agentGuess icon;
              x := ratioX mapBox icon;
              y := ratioY mapBox icon |}).
Proof.
  destruct mapBox as [y0 x0 y1 x1]. unfold finiteRect, gtb. cbn.
  destruct x0 as [x0| | |], y0 as [y0| | |], x1 as [x1| | |], y1 as [y1| | |];
    try discriminate.
  intros _ WX WY I.
  pose proof I as [[LX UX] [LY UY]]. unfold jle in *. cbn in LX, UX, LY, UY.
  destruct (axis_ratio _ _ _ WX LX UX) as [RX CX].
  destruct (axis_ratio _ _ _ WY LY UY) as [RY CY].
  split; [exact RX|]. split; [exact RY|].
  split; [exact CX|]. split; [exact CY|].
  intros provider.
  apply (isInsideOf_spec provider) in I.
  rewrite (toPlayerOf_inside _ _ _ I). unfold positionOf.
  f_equal. f_equal; assumption.
Qed.

End ExactClaims.

Section SelectorClaims.
Import MinimapSelector.

Lemma step_preserves_invariant (s : State) (e : Event) :
  selectionInvariant s -> selectionInvariant (step s e).
Proof.
  intros Inv b. destruct e; simpl.
  - unfold defaultSuggestion. destruct (selection s) eqn:S.
    + rewrite S. intros E. apply Inv. congruence.
    + simpl. intros E. injection E as <-. now left.
  - discriminate.
  - unfold handleMouseMove.
    destruct (isDragging s); [destruct (startPos s)|]; simpl; apply Inv.
  - unfold handleMouseUp.
    destruct (isDragging s); [|apply Inv].
    destruct (startPos s) as [sp|]; [|apply Inv].
    destruct (currentPos s) as [cp|]; [|apply Inv].
    simpl. match goal with |- (if ?c then _ else _) = _ -> _ => destruct c eqn:C end.
    + intros E. injection E as <-. right.
      apply andb_true_iff in C. exact C.
    + apply Inv.
  - unfold handleMouseUp.
    destruct (isDragging s); [|apply Inv].
    destruct (startPos s) as [sp|]; [|apply Inv].
    destruct (currentPos s) as [cp|]; [|apply Inv].
    simpl. match goal with |- (if ?c then _ else _) = _ -> _ => destruct c eqn:C end.
    + intros E. injection E as <-. right.
      apply andb_true_iff in C. exact C.
    + apply Inv.
  - apply Inv.
Qed.

Lemma fold_step_invariant (events : list Event) (s : State) :
  selectionInvariant s -> selectionInvariant (fold_left step events s).
Proof.
  revert s. induction events as [|e events IH]; intros s Inv; simpl; [exact Inv|].
  apply IH, step_preserves_invariant, Inv.
Qed.

(** C8.  Whatever the sequence of mount, mouse and click events, the
    rectangle that a click on Confirm passes to [onConfirm] has
    [xmax > xmin] and [ymax > ymin]: it is either the default suggestion
    [{0,0,250,250}] or a drag whose width and height both exceed 20; a
    drag that does not exceed 20 on both axes leaves the selection as it
    was. *)
Theorem confirmed_bounds_nondegenerate
    (events : list Event) (b : MinimapBounds number) :
  confirm (stateAfter events) = Some b ->
  gtb (xmax b) (xmin b) = true /\
  gtb (ymax b) (ymin b) = true /\
  (b = rect 0 0 250 250 \/ wideEnough b) /\
  (forall s startPos' currentPos',
      isDragging s = true -> startPos s = Some startPos' ->
      currentPos s = Some currentPos' ->
      wideEnough {| xmin := mathMin (x startPos') (x currentPos');
                    ymin := mathMin (y startPos') (y currentPos');
                    xmax := mathMax (x startPos') (x currentPos');
                    ymax := mathMax (y startPos') (y currentPos') |} \/
      selection (handleMouseUp s) = selection s).
Proof.
  intros C.
  assert (G : b = rect 0 0 250 250 \/ wideEnough b).
  { apply (fold_step_invariant events (s := initialState)); [|exact C].
    intros b'. discriminate. }
  split; [|split; [|split; [exact G|]]].
  - destruct G as [->|[W _]]; [reflexivity|]. now apply above_20_positive.
  - destruct G as [->|[_ W]]; [reflexivity|]. now apply above_20_positive.
  - intros s sp cp D S Cu. unfold handleMouseUp. rewrite D, S, Cu. simpl.
    match goal with |- _ \/ (if ?c then _ else _) = _ => destruct c eqn:E end.
    + left. apply andb_true_iff in E. exact E.
    + now right.
Qed.

End SelectorClaims.

Section Range.

(** X1.  Short of [NaN], the emitted coordinates are within [[0,100]]: the
    position of a kept detection carries the clamped ratios, and the
    clamp maps every other number, the infinities included, into the
    range. *)
Theorem emitted_coordinates_in_range (provider : ModelProvider)
    (mapBox : MinimapBounds number) (icon : Raw.RawAgentDetection number)
    (p : PlayerPosition number) :
  toPlayerOf provider mapBox icon = Some p ->
  x p = clamp100 (ratioX mapBox icon) /\
  y p = clamp100 (ratioY mapBox icon) /\
  (ratioX mapBox icon <> NaN -> inPercentRange (x p)) /\
  (ratioY mapBox icon <> NaN -> inPercentRange (y p)) /\
  (ratioX mapBox icon = NaN -> x p = NaN) /\
  (ratioY mapBox icon = NaN -> y p = NaN).
Proof.
  intros E.
  destruct (isInsideOf provider mapBox icon) eqn:I.
  - rewrite (toPlayerOf_inside _ _ _ I) in E. injection E as <-. simpl.
    split; [reflexivity|]. split; [reflexivity|].
    split; [apply clamp100_range|]. split; [apply clamp100_range|].
    split; intros ->; reflexivity.
  - rewrite (toPlayerOf_outside _ _ _ I) in E. discriminate.
Qed.

End Range.

(** ** The code on concrete inputs *)

Section Concrete.
Local Open Scope string_scope.

(** C2 (where the code departs from it).  The services do compute
    [x = clamp(ratioX)] and [y = clamp(ratioY)] for a kept detection, but
    the clamp [Math.max(0, Math.min(100, v))] lets [NaN] through.  With
    no manual bounds and a reply whose [minimapLocation] has
    [xmin = xmax = 100], an icon centred on [x = 100] passes the
    inclusion test, its ratio is [0/0*100 = NaN], and the emitted
    position has [x = NaN], which is not in [[0,100]]: in the exact model
    and in binary64 alike, for both services. *)
Theorem zero_width_rectangle_gives_NaN :
  (forall provider,
      postProcessOf (num:=number) provider zeroWidthReply None =
      {| mapName := "Haven";
         minimapBounds := rect 100 100 100 300;
         players := [{| team := "Red"; agentGuess := None; x := NaN; y := Fin 50 |}];
         summary := "s" |}) /\
  ~ inPercentRange NaN /\
  (forall provider,
      players (postProcessOf (num:=float) provider zeroWidthReply None) =
      [{| team := "Red"; agentGuess := None; x := PrimFloat.nan; y := 50%float |}]) /\
  ~ inPercentRange PrimFloat.nan.
Proof.
  split; [intros []; vm_compute; reflexivity|].
  split; [intros [L _]; discriminate L|].
  split; [intros []; vm_compute; reflexivity|].
  intros [L _]. vm_compute in L. discriminate L.
Qed.

(** The end-to-end scenario of the specification, in both models:
    the icon centred on (60,60) is placed at (30,30) and the one centred
    on (910,910) is dropped. *)
Example haven_scenario (provider : ModelProvider) :
  postProcessOf (num:=number) provider havenReply None =
    {| mapName := "Haven";
       minimapBounds := rect 0 0 200 200;
       players := [{| team := "Red"; agentGuess := None; x := Fin 30; y := Fin 30 |}];
       summary := "s" |} /\
  postProcessOf (num:=float) provider havenReply None =
    {| mapName := "Haven";
       minimapBounds := rect 0 0 200 200;
       players := [{| team := "Red"; agentGuess := None; x := 30%float; y := 30%float |}];
       summary := "s" |}.
Proof. destruct provider; split; vm_compute; reflexivity. Qed.

(** A centre exactly on the right edge ([cx = 200 = xmax]) is kept, at
    [x = 100]. *)
Example center_on_edge_is_kept (provider : ModelProvider) :
  toPlayerOf (num:=number) provider (rect 0 0 200 200) (detection "Blue" 190 0 210 20) =
    Some {| team := "Blue"; agentGuess := None; x := Fin 100; y := Fin 5 |} /\
  toPlayerOf (num:=float) provider (rect 0 0 200 200) (detection "Blue" 190 0 210 20) =
    Some {| team := "Blue"; agentGuess := None; x := 100%float; y := 5%float |}.
Proof. destruct provider; split; vm_compute; reflexivity. Qed.

(** The precedence scenario of the specification: manual bounds
    [{0,0,300,300}] against a reply located at [{100,100,400,400}]. *)
Example manual_over_model (provider : ModelProvider) :
  minimapBounds
    (postProcessOf (num:=number) provider
       (withLocation havenReply (Some (rect 100 100 400 400)))
       (Some (rect 0 0 300 300))) = rect 0 0 300 300.
Proof. destruct provider; reflexivity. Qed.

(** *** Instances of the conditional theorems *)

Lemma default_bounds_fallback_witness :
  Raw.minimapLocation (noLocationReply (num:=number)) = None /\
  minimapBounds (postProcessOf openai (noLocationReply (num:=number)) None) =
    rect 0 0 200 200 /\
  players (postProcessOf openai (noLocationReply (num:=number)) None) =
    [{| team := "Blue"; agentGuess := None; x := Fin 100; y := Fin 5 |}].
Proof.
  split; [reflexivity|].
  destruct (@default_bounds_fallback number exact openai noLocationReply eq_refl)
    as (_ & B & P).
  split; [exact B | exact P].
Defined.

Lemma normalization_is_deterministic_witness :
  parsedReply (num:=number) sampleParse sampleRun1 = Some havenReply /\
  parsedReply (num:=number) sampleParse sampleRun2 = Some havenReply /\
  analyze (num:=number) sampleParse sampleRun1 None =
    analyze (num:=number) sampleParse sampleRun2 None /\
  analyze (num:=number) sampleParse sampleRun1 None =
    inr {| mapName := "Haven";
           minimapBounds := rect 0 0 200 200;
           players := [{| team := "Red"; agentGuess := None; x := Fin 30; y := Fin 30 |}];
           summary := "s" |}.
Proof.
  split; [reflexivity|]. split; [reflexivity|].
  destruct (@normalization_is_deterministic
              number exact sampleParse havenReply None sampleRun1 sampleRun2 _ _
              eq_refl eq_refl eq_refl eq_refl) as (E & _).
  split; [exact (f_equal inr E) | reflexivity].
Defined.

Lemma confirmed_bounds_nondegenerate_witness :
  MinimapSelector.confirm (MinimapSelector.stateAfter (num:=number) sampleDrag) =
    Some (rect 100 100 400 380) /\
  gtb (num:=number) (lit 400) (lit 100) = true /\
  gtb (num:=number) (lit 380) (lit 100) = true /\
  MinimapSelector.confirm (MinimapSelector.stateAfter (num:=number) sampleClick) = None.
Proof.
  assert (C : MinimapSelector.confirm (MinimapSelector.stateAfter (num:=number) sampleDrag) =
              Some (rect 100 100 400 380)) by reflexivity.
  split; [exact C|].
  destruct (@confirmed_bounds_nondegenerate sampleDrag (rect 100 100 400 380) C)
    as (X & Y & _).
  split; [exact X|]. split; [exact Y | reflexivity].
Defined.

Lemma clamp_is_identity_on_kept_witness :
  finiteRect (rect 0 0 200 200) = true /\
  gtb (num:=number) (lit 200) (lit 0) = true /\
  centerWithin (num:=number) (rect 0 0 200 200) (detection "Red" 50 50 70 70) /\
  ratioX (num:=number) (rect 0 0 200 200) (detection "Red" 50 50 70 70) = Fin 30 /\
  clamp100 (num:=number) (Fin 30) = Fin 30.
Proof.
  assert (I : centerWithin (num:=number) (rect 0 0 200 200) (detection "Red" 50 50 70 70))
    by (repeat split).
  split; [reflexivity|]. split; [reflexivity|].
  split; [exact I|]. split; [reflexivity|].
  assert (F : finiteRect (rect 0 0 200 200) = true) by reflexivity.
  assert (W : gtb (num:=number) (lit 200) (lit 0) = true) by reflexivity.
  destruct (@clamp_is_identity_on_kept
              (rect 0 0 200 200) (detection "Red" 50 50 70 70)
              F W W I) as (_ & _ & C & _).
  exact C.
Defined.

Lemma emitted_coordinates_in_range_witness :
  toPlayerOf (num:=number) gemini (rect 0 0 61 61) (detection "Red" 50 50 70 70) =
    Some {| team := "Red"; agentGuess := None; x := Fin (6000 # 61); y := Fin (6000 # 61) |} /\
  inPercentRange (Fin (6000 # 61)).
Proof.
  assert (E : toPlayerOf (num:=number) gemini (rect 0 0 61 61) (detection "Red" 50 50 70 70) =
              Some {| team := "Red"; agentGuess := None;
                      x := Fin (6000 # 61); y := Fin (6000 # 61) |}) by reflexivity.
  split; [exact E|].
  destruct (emitted_coordinates_in_range gemini _ _ E) as (_ & _ & R & _).
  apply R. discriminate.
Defined.

End Concrete.

(** * Further properties

    ** The normalizer in exact arithmetic *)

Section NormalizerArithmetic.

(** What [toPlayerOf] returns is the position of the specification, and
    it returns one only for a centre within the rectangle. *)
Lemma toPlayerOf_Some (provider : ModelProvider)
    (mapBox : MinimapBounds number) (icon : Raw.RawAgentDetection number)
    (p : PlayerPosition number) :
  toPlayerOf provider mapBox icon = Some p ->
  centerWithin mapBox icon /\ p = positionOf mapBox icon.
Proof.
  intros E. destruct (isInsideOf provider mapBox icon) eqn:I.
  - rewrite (toPlayerOf_inside _ _ _ I) in E. injection E as <-.
    split; [now apply (isInsideOf_spec provider) | reflexivity].
  - rewrite (toPlayerOf_outside _ _ _ I) in E. discriminate.
Qed.

(** The comparison of the exact model is transitive. *)
Lemma nleb_trans (a c b : number) :
  nleb a c = true -> nleb c b = true -> nleb a b = true.
Proof.
  destruct a as [p| | |], b as [q| | |], c as [r| | |];
    try (simpl; discriminate); try reflexivity.
  rewrite !nleb_Fin. apply Qle_trans.
Qed.

(** Squeezed between two numbers of which the upper is not above the
    lower, a number has a [NaN] ratio. *)
Lemma squeezed_ratio_NaN (a b c : number) :
  nleb a c = true -> nleb c b = true -> nleb b a = true ->
  nmul (ndiv (nsub c a) (nsub b a)) (Fin (inject_Z 100)) = NaN.
Proof.
  destruct a as [p| | |], b as [q| | |], c as [r| | |];
    try (simpl; discriminate); try reflexivity.
  rewrite !nleb_Fin. intros L U R.
  cbn [nsub nadd neg]. unfold ndiv, fin.
  assert (Z1 : isZero (Qred (q + - p)) = true)
    by (apply isZero_spec; rewrite Qred_correct; lra).
  assert (Z2 : isZero (Qred (r + - p)) = true)
    by (apply isZero_spec; rewrite Qred_correct; lra).
  rewrite Z1, Z2. reflexivity.
Qed.

(** The value of a ratio over a span of positive length. *)
Lemma ratio_value (a b c : Q) :
  (a < b)%Q ->
  exists r,
    nmul (ndiv (nsub (Fin c) (Fin a)) (nsub (Fin b) (Fin a))) (Fin (inject_Z 100)) = Fin r /\
    (r == (c - a) / (b - a) * 100)%Q /\ Qred r = r.
Proof.
  intros W.
  assert (Wp : (0 < Qred (b + - a))%Q) by (rewrite Qred_correct; lra).
  assert (Z0 : isZero (Qred (b + - a)) = false).
  { apply not_true_iff_false. rewrite isZero_spec. intros E. rewrite E in Wp.
    now apply Qlt_irrefl in Wp. }
  exists (Qred (Qred (Qred (c + - a) / Qred (b + - a)) * inject_Z 100)).
  split; [unfold nsub, nadd, neg, ndiv, fin; rewrite Z0; reflexivity|].
  split; [|apply Qred_idem].
  rewrite !Qred_correct. reflexivity.
Qed.

(** A finite half is in lowest terms, and so is the centre of a
    detection. *)
Lemma half_canonical (a : number) (c : Q) :
  ndiv a (Fin (inject_Z 2)) = Fin c -> Qred c = c.
Proof.
  destruct a as [p| | |]; try (cbv; discriminate).
  unfold ndiv. change (isZero (inject_Z 2)) with false. cbv iota.
  unfold fin. intros E.
  assert (C : c = Qred (p / inject_Z 2)) by congruence.
  rewrite C. apply Qred_idem.
Qed.

Lemma cx_canonical (icon : Raw.RawAgentDetection number) (c : Q) :
  cx icon = Fin c -> Qred c = c.
Proof. apply half_canonical. Qed.

Lemma cy_canonical (icon : Raw.RawAgentDetection number) (c : Q) :
  cy icon = Fin c -> Qred c = c.
Proof. apply half_canonical. Qed.

(** One axis of a kept detection over a proper span: the emitted
    coordinate is the exact ratio, within [[0,100]]. *)
Lemma axis_emitted (a b : Q) (c : number) :
  nltb (Fin a) (Fin b) = true ->
  nleb (Fin a) c = true -> nleb c (Fin b) = true ->
  exists q r,
    c = Fin q /\ (a <= q <= b)%Q /\
    clamp100 (nmul (ndiv (nsub c (Fin a)) (nsub (Fin b) (Fin a))) (Fin (inject_Z 100))) = Fin r /\
    (r == (q - a) / (b - a) * 100)%Q /\ (0 <= r <= 100)%Q /\ Qred r = r.
Proof.
  intros W L U.
  destruct (axis_ratio _ _ _ W L U) as [[R0 R1] C].
  apply nltb_Fin in W.
  destruct (between_finite _ _ _ L U) as (q & -> & B).
  destruct (ratio_value q W) as (r & E & V & K).
  exists q, r. rewrite C, E. repeat split; try apply B; try exact V; try exact K.
  - rewrite E in R0. apply Qle_bool_iff in R0. exact R0.
  - rewrite E in R1. apply Qle_bool_iff in R1. exact R1.
Qed.

(** A detection kept over a finite rectangle with [xmax > xmin] and
    [ymax > ymin]: its centre is finite and within the rectangle, and the
    emitted coordinates are the exact ratios. *)
Lemma kept_axes (provider : ModelProvider)
    (mapBox : MinimapBounds number) (icon : Raw.RawAgentDetection number)
    (p : PlayerPosition number) :
  properRect mapBox ->
  toPlayerOf provider mapBox icon = Some p ->
  exists x0 y0 x1 y1 qx qy rx ry,
    mapBox = {| ymin := Fin y0; xmin := Fin x0; ymax := Fin y1; xmax := Fin x1 |} /\
    (x0 < x1)%Q /\ (y0 < y1)%Q /\
    cx icon = Fin qx /\ cy icon = Fin qy /\
    x p = Fin rx /\ y p = Fin ry /\
    (rx == (qx - x0) / (x1 - x0) * 100)%Q /\
    (ry == (qy - y0) / (y1 - y0) * 100)%Q /\
    (0 <= rx <= 100)%Q /\ (0 <= ry <= 100)%Q /\
    Qred rx = rx /\ Qred ry = ry.
Proof.
  intros (F & WX & WY) E.
  apply toPlayerOf_Some in E. destruct E as [[[LX UX] [LY UY]] ->].
  cbn [x y positionOf]. unfold ratioX, ratioY, jle, gtb in *.
  remember (cx icon) as c eqn:Hc. remember (cy icon) as d eqn:Hd.
  destruct mapBox as [y0 x0 y1 x1]. unfold finiteRect in F.
  cbn [xmin xmax ymin ymax] in *.
  destruct x0 as [x0| | |], y0 as [y0| | |], x1 as [x1| | |], y1 as [y1| | |];
    try discriminate.
  cbn [leb ltb exact] in WX, WY, LX, UX, LY, UY.
  cbn [mul div sub lit exact].
  destruct (axis_emitted _ _ _ WX LX UX) as (qx & rx & CX & _ & EX & VX & RX & KX).
  destruct (axis_emitted _ _ _ WY LY UY) as (qy & ry & CY & _ & EY & VY & RY & KY).
  apply nltb_Fin in WX, WY.
  exists x0, y0, x1, y1, qx, qy, rx, ry.
  repeat split; try assumption; try apply RX; try apply RY.
Qed.

(** Scaling by a positive span keeps and reflects the order. *)
Lemma scaled_le_iff (u v w : Q) :
  (0 < w)%Q -> (u / w * 100 <= v / w * 100 <-> u <= v)%Q.
Proof.
  intros W. assert (K : (0 < / w)%Q) by now apply Qinv_lt_0_compat.
  unfold Qdiv. rewrite Qmult_le_r by reflexivity. now rewrite Qmult_le_r.
Qed.

(** X2.  A rectangle without extent on an axis turns that coordinate of
    every detection it keeps into [NaN]: when [xmax <= xmin] and a
    detection is kept (so [xmin = cx = xmax]), the emitted [x] is [NaN],
    and likewise for [y]. *)
Theorem flat_rectangle_emits_NaN (provider : ModelProvider)
    (mapBox : MinimapBounds number) (icon : Raw.RawAgentDetection number)
    (p : PlayerPosition number) :
  toPlayerOf provider mapBox icon = Some p ->
  (jle (xmax mapBox) (xmin mapBox) -> x p = NaN) /\
  (jle (ymax mapBox) (ymin mapBox) -> y p = NaN).
Proof.
  intros E. apply toPlayerOf_Some in E. destruct E as [[[LX UX] [LY UY]] ->].
  unfold jle in *. cbn in LX, UX, LY, UY. simpl x. simpl y.
  split; intros F; cbn in F; unfold ratioX, ratioY; cbn [mul div sub lit exact].
  - rewrite (squeezed_ratio_NaN _ _ _ LX UX F). reflexivity.
  - rewrite (squeezed_ratio_NaN _ _ _ LY UY F). reflexivity.
Qed.

(** X3.  Only a rectangle with [xmin <= xmax] and [ymin <= ymax] can keep
    a detection: for a reversed rectangle, or one with a [NaN]
    coordinate, the list of players is empty whatever the detections. *)
Theorem unordered_rectangle_keeps_nothing (provider : ModelProvider)
    (mapBox : MinimapBounds number) :
  leb (xmin mapBox) (xmax mapBox) && leb (ymin mapBox) (ymax mapBox) = false ->
  (forall icons, playersOf provider mapBox icons = []) /\
  (forall rawData manualBounds,
      mapBoxOf provider rawData manualBounds = mapBox ->
      players (postProcessOf provider rawData manualBounds) = []).
Proof.
  intros U.
  assert (N : forall icon, isInsideOf provider mapBox icon = false).
  { intros icon. apply not_true_iff_false. intros I.
    apply isInsideOf_spec in I. destruct I as [[LX UX] [LY UY]].
    unfold jle in *. cbn in LX, UX, LY, UY. cbn in U.
    rewrite (nleb_trans _ _ _ LX UX), (nleb_trans _ _ _ LY UY) in U.
    discriminate. }
  assert (P : forall icons, playersOf provider mapBox icons = []).
  { intros icons. unfold playersOf. rewrite players_filter.
    induction icons as [|icon icons IH]; simpl; [reflexivity|].
    now rewrite N. }
  split; [exact P|].
  intros rawData manualBounds M. rewrite players_postProcessOf, M. apply P.
Qed.

(** X4.  Over a finite rectangle with [xmax > xmin] and [ymax > ymin]
    the emitted position determines the centre of the detection:
    [xmin + x * (xmax - xmin) / 100] is [cx] and
    [ymin + y * (ymax - ymin) / 100] is [cy]. *)
Theorem position_determines_center (provider : ModelProvider)
    (mapBox : MinimapBounds number) (icon : Raw.RawAgentDetection number)
    (p : PlayerPosition number) :
  properRect mapBox ->
  toPlayerOf provider mapBox icon = Some p ->
  add (xmin mapBox) (div (mul (x p) (sub (xmax mapBox) (xmin mapBox))) (lit 100)) = cx icon /\
  add (ymin mapBox) (div (mul (y p) (sub (ymax mapBox) (ymin mapBox))) (lit 100)) = cy icon.
Proof.
  intros P E.
  destruct (kept_axes provider icon P E)
    as (x0 & y0 & x1 & y1 & qx & qy & rx & ry & -> & WX & WY & CX & CY & EX & EY & VX & VY & _).
  rewrite EX, EY, CX, CY. cbn [xmin xmax ymin ymax add div mul sub lit exact].
  cbn [nsub nadd neg nmul]. unfold ndiv.
  change (isZero (inject_Z 100)) with false. cbv iota. cbn [nadd]. unfold fin.
  split; f_equal.
  - apply Qred_eq_canon; [|now apply (cx_canonical icon)].
    rewrite !Qred_correct, VX. change (inject_Z 100) with 100%Q. field. lra.
  - apply Qred_eq_canon; [|now apply (cy_canonical icon)].
    rewrite !Qred_correct, VY. change (inject_Z 100) with 100%Q. field. lra.
Qed.

(** X5.  Over such a rectangle the scaling keeps the order of the kept
    detections on each axis, and reflects it: [x] of one is at most [x] of
    the other exactly when its [cx] is at most the other's, and likewise
    for [y] and [cy].  Two kept detections with the same position have
    the same centre. *)
Theorem normalization_preserves_order (provider : ModelProvider)
    (mapBox : MinimapBounds number) (a b : Raw.RawAgentDetection number)
    (pa pb : PlayerPosition number) :
  properRect mapBox ->
  toPlayerOf provider mapBox a = Some pa ->
  toPlayerOf provider mapBox b = Some pb ->
  (jle (x pa) (x pb) <-> jle (cx a) (cx b)) /\
  (jle (y pa) (y pb) <-> jle (cy a) (cy b)) /\
  (x pa = x pb -> y pa = y pb -> cx a = cx b /\ cy a = cy b).
Proof.
  intros P Ea Eb.
  destruct (kept_axes provider a P Ea)
    as (x0 & y0 & x1 & y1 & qxa & qya & rxa & rya & M & WX & WY
        & CXa & CYa & EXa & EYa & VXa & VYa & _).
  destruct (kept_axes provider b P Eb)
    as (x0' & y0' & x1' & y1' & qxb & qyb & rxb & ryb & M'
        & _ & _ & CXb & CYb & EXb & EYb & VXb & VYb & _).
  rewrite M in M'. injection M' as <- <- <- <-.
  rewrite EXa, EYa, EXb, EYb, CXa, CYa, CXb, CYb. unfold jle. cbn [leb exact].
  assert (OX : (rxa <= rxb <-> qxa <= qxb)%Q).
  { rewrite VXa, VXb, scaled_le_iff by lra. split; intros; lra. }
  assert (OY : (rya <= ryb <-> qya <= qyb)%Q).
  { rewrite VYa, VYb, scaled_le_iff by lra. split; intros; lra. }
  split; [rewrite !nleb_Fin; exact OX|].
  split; [rewrite !nleb_Fin; exact OY|].
  intros HX HY.
  assert (RX : rxa = rxb) by congruence. assert (RY : rya = ryb) by congruence.
  assert (OX' : (rxb <= rxa <-> qxb <= qxa)%Q).
  { rewrite VXa, VXb, scaled_le_iff by lra. split; intros; lra. }
  assert (OY' : (ryb <= rya <-> qyb <= qya)%Q).
  { rewrite VYa, VYb, scaled_le_iff by lra. split; intros; lra. }
  split; f_equal.
  - rewrite <- (cx_canonical a CXa), <- (cx_canonical b CXb). apply Qred_complete.
    apply Qle_antisym; [apply OX | apply OX']; rewrite RX; apply Qle_refl.
  - rewrite <- (cy_canonical a CYa), <- (cy_canonical b CYb). apply Qred_complete.
    apply Qle_antisym; [apply OY | apply OY']; rewrite RY; apply Qle_refl.
Qed.

(** X17.  Over a finite rectangle with [xmax > xmin] and [ymax > ymin]
    the ends of the scale are hit on the edges and nowhere else: a kept
    detection gets [x = 0] exactly when its centre is on the left edge
    ([cx <= xmin]) and [x = 100] exactly when it is on the right edge
    ([xmax <= cx]); likewise [y] with the top and bottom edges. *)
Theorem edges_map_to_ends (provider : ModelProvider)
    (mapBox : MinimapBounds number) (icon : Raw.RawAgentDetection number)
    (p : PlayerPosition number) :
  properRect mapBox ->
  toPlayerOf provider mapBox icon = Some p ->
  (x p = lit 0 <-> jle (cx icon) (xmin mapBox)) /\
  (x p = lit 100 <-> jle (xmax mapBox) (cx icon)) /\
  (y p = lit 0 <-> jle (cy icon) (ymin mapBox)) /\
  (y p = lit 100 <-> jle (ymax mapBox) (cy icon)).
Proof.
  intros P E.
  destruct (kept_axes provider icon P E)
    as (x0 & y0 & x1 & y1 & qx & qy & rx & ry & -> & WX & WY & CX & CY & EX & EY
        & VX & VY & RX & RY & KX & KY).
  assert (I : centerWithin {| ymin := Fin y0; xmin := Fin x0; ymax := Fin y1; xmax := Fin x1 |} icon)
    by (now apply toPlayerOf_Some in E).
  destruct I as [[LX UX] [LY UY]]. unfold jle in *.
  rewrite CX in LX, UX. rewrite CY in LY, UY.
  cbn [xmin xmax ymin ymax leb exact] in LX, UX, LY, UY.
  apply nleb_Fin in LX, UX, LY, UY.
  rewrite EX, EY, CX, CY. cbn [xmin xmax ymin ymax leb lit exact]. rewrite !nleb_Fin.
  assert (A : forall a b q r,
             (a < b)%Q -> (a <= q <= b)%Q -> (r == (q - a) / (b - a) * 100)%Q -> Qred r = r ->
             (Fin r = Fin (inject_Z 0) <-> (q <= a)%Q) /\
             (Fin r = Fin (inject_Z 100) <-> (b <= q)%Q)).
  { intros a b q r W [L U] V K.
    assert (S0 : (r <= 0 <-> q <= a)%Q).
    { rewrite V. setoid_replace 0%Q with ((a - a) / (b - a) * 100)%Q at 1
        by (field; lra).
      rewrite scaled_le_iff by lra. split; intros; lra. }
    assert (S1 : (100 <= r <-> b <= q)%Q).
    { rewrite V. setoid_replace 100%Q with ((b - a) / (b - a) * 100)%Q at 1
        by (field; lra).
      rewrite scaled_le_iff by lra. split; intros; lra. }
    split; split.
    - intros F. apply S0. assert (r = inject_Z 0) by congruence. subst r. apply Qle_refl.
    - intros Q. f_equal. rewrite <- K. apply Qred_eq_canon; [|reflexivity].
      rewrite Qred_correct. apply Qle_antisym; [now apply S0|].
      rewrite V. apply Qmult_le_0_compat; [|lra].
      apply Qle_shift_div_l; lra.
    - intros F. apply S1. assert (r = inject_Z 100) by congruence. subst r. apply Qle_refl.
    - intros Q. f_equal. rewrite <- K. apply Qred_eq_canon; [|reflexivity].
      rewrite Qred_correct. apply Qle_antisym; [|now apply S1].
      rewrite V. setoid_replace 100%Q with (1 * 100)%Q at 2 by ring.
      apply Qmult_le_compat_r; [|lra]. apply Qle_shift_div_r; lra. }
  destruct (A x0 x1 qx rx WX (conj LX UX) VX KX) as [AX0 AX1].
  destruct (A y0 y1 qy ry WY (conj LY UY) VY KY) as [AY0 AY1].
  repeat split; try apply AX0; try apply AX1; try apply AY0; try apply AY1.
Qed.

End NormalizerArithmetic.
(** ** The services on every reply *)

Section UntypedFacts.
Context {num : Type} `{JSNumber num}.
Variable toNumberOther : JS.value num -> num.
Variable toStringOther : JS.value num -> string.
Variable JSON_parse : string -> option (JS.value num).
Local Open Scope string_scope.

(** The two services have one post-processing, text for text. *)
Lemma untyped_postProcess_same :
  Untyped.OpenAI.postProcess toNumberOther toStringOther =
  Untyped.Gemini.postProcess toNumberOther toStringOther.
Proof. reflexivity. Qed.

Lemma get_present (v : JS.value num) (key : string) :
  JS.nullish v = false -> JS.get v key = inr (JS.field v key).
Proof. intros N. unfold JS.get. now rewrite N. Qed.

Lemma get_absent (v : JS.value num) (key : string) :
  JS.nullish v = true -> JS.get v key = inl TypeError.
Proof. intros N. unfold JS.get. now rewrite N. Qed.

(** Optional chaining never throws. *)
Lemma getOptional_field (v : JS.value num) (key : string) :
  JS.getOptional v key = inr (JS.field v key).
Proof.
  unfold JS.getOptional, JS.get. destruct v; reflexivity.
Qed.








(** *** Replies that have the interface's shape *)

Lemma asNumber_Some (v : JS.value num) (n : num) :
  JS.asNumber v = Some n -> v = JS.VNumber n.
Proof. destruct v; simpl; congruence. Qed.

Lemma asString_Some (v : JS.value num) (s : string) :
  JS.asString v = Some s -> v = JS.VString s.
Proof. destruct v; simpl; congruence. Qed.

Lemma asBounds_fields (v : JS.value num) (b : MinimapBounds num) :
  JS.asBounds v = Some b ->
  JS.field v "ymin" = JS.VNumber (ymin b) /\ JS.field v "xmin" = JS.VNumber (xmin b) /\
  JS.field v "ymax" = JS.VNumber (ymax b) /\ JS.field v "xmax" = JS.VNumber (xmax b).
Proof.
  unfold JS.asBounds.
  destruct (JS.asNumber (JS.field v "ymin")) as [y0|] eqn:Y0; [|discriminate].
  destruct (JS.asNumber (JS.field v "xmin")) as [x0|] eqn:X0; [|discriminate].
  destruct (JS.asNumber (JS.field v "ymax")) as [y1|] eqn:Y1; [|discriminate].
  destruct (JS.asNumber (JS.field v "xmax")) as [x1|] eqn:X1; [|discriminate].
  intros E. injection E as <-. simpl.
  apply asNumber_Some in Y0, X0, Y1, X1. auto.
Qed.

Lemma asBounds_object (v : JS.value num) (b : MinimapBounds num) :
  JS.asBounds v = Some b -> JS.nullish v = false /\ JS.ToBoolean v = true.
Proof.
  intros E. apply asBounds_fields in E. destruct E as (E & _).
  destruct v; simpl in E; try discriminate. auto.
Qed.

Lemma asBounds_ofBounds (b : MinimapBounds num) : JS.asBounds (JS.ofBounds b) = Some b.
Proof. destruct b; reflexivity. Qed.

Lemma asDetection_fields (v : JS.value num) (d : Raw.RawAgentDetection num) :
  JS.asDetection v = Some d ->
  JS.nullish v = false /\
  JS.field v "team" = JS.VString (Raw.team d) /\
  JS.asOptionalString (JS.field v "agentGuess") = Some (Raw.agentGuess d) /\
  JS.asBounds (JS.field v "boundingBox") = Some (Raw.boundingBox d).
Proof.
  unfold JS.asDetection.
  destruct (JS.asString (JS.field v "team")) as [team|] eqn:T; [|discriminate].
  destruct (JS.asOptionalString (JS.field v "agentGuess")) as [guess|] eqn:G; [|discriminate].
  destruct (JS.asBounds (JS.field v "boundingBox")) as [box|] eqn:B; [|discriminate].
  intros E. injection E as <-. simpl.
  apply asString_Some in T. split; [|auto].
  destruct v; simpl in T; try discriminate; reflexivity.
Qed.

(** On an icon of the interface's shape, over a rectangle of the
    interface's shape, the callback computes what the typed callback
    computes. *)
Lemma toPlayer_typed (box icon : JS.value num) (b : MinimapBounds num)
    (d : Raw.RawAgentDetection num) :
  JS.asBounds box = Some b -> JS.asDetection icon = Some d ->
  exists p, Untyped.OpenAI.toPlayer toNumberOther toStringOther box icon = inr p /\
            match Gemini.toPlayer b d with
            | None => p = None
            | Some player => exists v, p = Some v /\ JS.asPlayer v = Some player
            end.
Proof.
  intros B D.
  apply asBounds_fields in B. destruct B as (By0 & Bx0 & By1 & Bx1).
  apply asDetection_fields in D. destruct D as (N & T & G & BB).
  destruct (asBounds_object _ BB) as [NB _].
  apply asBounds_fields in BB. destruct BB as (Iy0 & Ix0 & Iy1 & Ix1).
  unfold Untyped.OpenAI.toPlayer, Untyped.OpenAI.mapWidth, Untyped.OpenAI.mapHeight.
  rewrite (get_present icon _ N). cbn [andThen].
  rewrite !(get_present _ _ NB). cbn [andThen].
  rewrite By0, Bx0, By1, Bx1, Iy0, Ix0, Iy1, Ix1.
  cbn [JS.plus JS.stringLike orb JS.ToNumber].
  unfold Gemini.toPlayer, Gemini.isInside, Gemini.relX, Gemini.relY, Gemini.clamp,
    Gemini.iconCenterX, Gemini.iconCenterY, Gemini.mapWidth, Gemini.mapHeight.
  match goal with |- context [if negb ?c then _ else _] => destruct c end; cbn [negb].
  - eexists. split; [reflexivity|]. eexists. split; [reflexivity|].
    unfold JS.asPlayer. cbn [JS.field JS.ownProperty String.eqb Ascii.eqb Bool.eqb andb].
    rewrite T, G. reflexivity.
  - eexists. split; reflexivity.
Qed.

Lemma mapThrowing_typed (box : JS.value num) (b : MinimapBounds num)
    (icons : list (JS.value num)) (ds : list (Raw.RawAgentDetection num)) :
  JS.asBounds box = Some b -> JS.allSome (map JS.asDetection icons) = Some ds ->
  exists mapped,
    mapThrowing (Untyped.OpenAI.toPlayer toNumberOther toStringOther box) icons = inr mapped /\
    JS.allSome (map JS.asPlayer (filterNotNull mapped)) =
      Some (filterNotNull (map (Gemini.toPlayer b) ds)).
Proof.
  intros B. revert ds. induction icons as [|icon icons IH]; intros ds A; simpl in A.
  - injection A as <-. exists []. split; reflexivity.
  - destruct (JS.asDetection icon) as [d|] eqn:D; [|discriminate].
    destruct (JS.allSome (map JS.asDetection icons)) as [ds'|] eqn:A'; [|discriminate].
    simpl in A. injection A as <-.
    destruct (IH ds' eq_refl) as (mapped & M & V).
    destruct (toPlayer_typed box icon B D) as (p & P & Q).
    exists (p :: mapped). simpl. rewrite P, M. split; [reflexivity|].
    destruct (Gemini.toPlayer b d) as [player|].
    + destruct Q as (v & -> & Q). simpl. rewrite Q, V. reflexivity.
    + subst p. simpl. exact V.
Qed.

Lemma postProcess_typed (rawData : JS.value num) (raw : Raw.RawAnalysisResponse num)
    (manualBounds : option (MinimapBounds num)) :
  JS.asRawResponse rawData = Some raw ->
  exists result,
    Untyped.OpenAI.postProcess toNumberOther toStringOther rawData manualBounds = inr result /\
    JS.asResult result = Some (Gemini.postProcess raw manualBounds).
Proof.
  unfold JS.asRawResponse.
  destruct (JS.asString (JS.field rawData "mapName")) as [name|] eqn:Nm; [|discriminate].
  destruct (JS.asOptionalBounds (JS.field rawData "minimapLocation")) as [loc|] eqn:L;
    [|discriminate].
  destruct (JS.field rawData "detectedIcons") as [| | | | |icons|] eqn:D; try discriminate.
  destruct (JS.asString (JS.field rawData "summary")) as [sum|] eqn:S; [|discriminate].
  destruct (JS.allSome (map JS.asDetection icons)) as [ds|] eqn:A; [|discriminate].
  simpl. intros E. injection E as <-.
  apply asString_Some in Nm, S.
  assert (N : JS.nullish rawData = false).
  { destruct rawData; simpl in Nm; try discriminate; reflexivity. }
  assert (M : exists box, Untyped.OpenAI.mapBox rawData manualBounds = inr box /\
                          JS.asBounds box =
                            Some (Gemini.mapBox
                                    {| Raw.mapName := name; Raw.minimapLocation := loc;
                                       Raw.detectedIcons := ds; Raw.summary := sum |}
                                    manualBounds)).
  { unfold Untyped.OpenAI.mapBox, Gemini.mapBox. destruct manualBounds as [bounds|].
    - eexists. split; [reflexivity|]. apply asBounds_ofBounds.
    - rewrite (get_present _ _ N). cbn [andThen Raw.minimapLocation].
      unfold JS.asOptionalBounds in L.
      destruct (JS.field rawData "minimapLocation") eqn:F;
        try (destruct (JS.asBounds _) as [location|] eqn:B in L; [|discriminate];
             simpl in L; injection L as <-;
             destruct (asBounds_object _ B) as [_ ->];
             eexists; split; [reflexivity|exact B]);
        injection L as <-; simpl; eexists; split; reflexivity. }
  destruct M as (box & M & B).
  destruct (mapThrowing_typed box icons B A) as (mapped & MT & V).
  unfold Untyped.OpenAI.postProcess. rewrite M, (get_present _ _ N), D. cbn [andThen].
  rewrite MT. cbn [andThen]. eexists. split; [reflexivity|].
  unfold JS.asResult. cbn [JS.field JS.ownProperty String.eqb Ascii.eqb Bool.eqb andb].
  rewrite Nm, S, B. cbn [JS.asString]. rewrite V. reflexivity.
Qed.


(** *** How the services end *)

Lemma contentOf_outcome (data : JS.value num) :
  Untyped.OpenAI.contentOf data =
    if JS.nullish data || JS.nullish (JS.field data "choices") then inl TypeError
    else inr (Untyped.OpenAI.messageContent data).
Proof.
  unfold Untyped.OpenAI.contentOf, Untyped.OpenAI.messageContent.
  destruct (JS.nullish data) eqn:N.
  - now rewrite (get_absent _ _ N).
  - rewrite (get_present _ _ N). cbn [andThen orb]. unfold JS.first.
    destruct (JS.nullish (JS.field data "choices")); [reflexivity|].
    cbn [andThen]. rewrite getOptional_field. cbn [andThen]. apply getOptional_field.
Qed.








(** X19.  The typed reading is the untyped one on well-shaped replies.
    When the parsed value has the shape of [RawAnalysisResponse] (a
    string [mapName] and [summary], a [minimapLocation] that is absent,
    [null] or a rectangle of numbers, and an array of icons, each with a
    string [team], an [agentGuess] that is absent or a string and a
    rectangle of numbers), the post-processing of both services returns,
    and what it returns has the shape of [AnalysisResult] and is the
    result the typed post-processing computes. *)
Theorem well_shaped_reply_gives_typed_result
    (rawData : JS.value num) (raw : Raw.RawAnalysisResponse num)
    (manualBounds : option (MinimapBounds num)) :
  JS.asRawResponse rawData = Some raw ->
  (exists result,
      Untyped.OpenAI.postProcess toNumberOther toStringOther rawData manualBounds =
        inr result /\
      JS.asResult result = Some (OpenAI.postProcess raw manualBounds)) /\
  (exists result,
      Untyped.Gemini.postProcess toNumberOther toStringOther rawData manualBounds =
        inr result /\
      JS.asResult result = Some (Gemini.postProcess raw manualBounds)).
Proof.
  intros A. destruct (postProcess_typed rawData manualBounds A) as (result & E & V).
  split; exists result; split; try exact E; exact V.
Qed.

(** X20.  The typed services are the untyped ones on well-shaped
    replies.  With the typed parser [typedParse JSON_parse], whenever
    the typed Gemini service returns a result on a reply text, the
    untyped one returns on the same text a value that has the shape of
    [AnalysisResult] and is that result; likewise for the OpenAI service
    on an ok response whose body is JSON and carries the text as the
    content of its first choice. *)
Theorem typed_run_is_untyped_run
    (manualBounds : option (MinimapBounds num)) (r : AnalysisResult num) :
  (forall generatedText,
      Gemini.analyzeValorantScreenshot (typedParse JSON_parse)
        (Some {| Gemini.text := generatedText |}) manualBounds = inr r ->
      exists v,
        Untyped.Gemini.analyzeValorantScreenshot toNumberOther toStringOther JSON_parse
          (Some {| Untyped.Gemini.text := generatedText |}) manualBounds = inr v /\
        JS.asResult v = Some r) /\
  (forall apiKey status message c text data,
      JSON_parse text = Some data ->
      JS.nullish data = false -> JS.nullish (JS.field data "choices") = false ->
      Untyped.OpenAI.messageContent data = JS.VString c ->
      OpenAI.analyzeWithOpenAI (typedParse JSON_parse) apiKey
        (Some {| OpenAI.ok := true; OpenAI.statusText := status;
                 OpenAI.errorMessage := message; OpenAI.content := Some c |})
        manualBounds = inr r ->
      exists v,
        Untyped.OpenAI.analyzeWithOpenAI toNumberOther toStringOther JSON_parse apiKey
          (Some {| Untyped.OpenAI.ok := true; Untyped.OpenAI.statusText := status;
                   Untyped.OpenAI.body := Some text |})
          manualBounds = inr v /\
        JS.asResult v = Some r).
Proof.
  split.
  - intros [t|]; unfold Gemini.analyzeValorantScreenshot,
      Untyped.Gemini.analyzeValorantScreenshot;
      cbn [awaited andThen Gemini.text Untyped.Gemini.text]; [|discriminate].
    destruct (truthy (Some t)); [|discriminate].
    unfold typedParse. destruct (JSON_parse t) as [rawData|]; [|discriminate].
    destruct (JS.asRawResponse rawData) as [raw|] eqn:A; [|discriminate].
    intros E. injection E as <-.
    rewrite <- untyped_postProcess_same. now apply postProcess_typed.
  - intros apiKey status message c text data B N C M.
    unfold OpenAI.analyzeWithOpenAI, Untyped.OpenAI.analyzeWithOpenAI, Untyped.OpenAI.json.
    destruct (truthy apiKey); cbn [negb]; [|discriminate].
    cbn [awaited andThen OpenAI.ok OpenAI.content Untyped.OpenAI.ok Untyped.OpenAI.body negb].
    rewrite B. cbn [andThen].
    rewrite contentOf_outcome, N, C, M. cbn [orb andThen JS.ToBoolean JS.ToString].
    change (negb (String.eqb c "")) with (truthy (Some c)).
    destruct (truthy (Some c)); cbn [negb]; [|discriminate].
    unfold typedParse. destruct (JSON_parse c) as [rawData|]; [|discriminate].
    destruct (JS.asRawResponse rawData) as [raw|] eqn:A; [|discriminate].
    intros E. injection E as <-.
    destruct (postProcess_typed rawData manualBounds A) as (v & P & V).
    exists v. split; [exact P|exact V].
Qed.

End UntypedFacts.

Section UntypedConcrete.
Local Open Scope string_scope.

(** C6.  The two provider services on one reply.  The file
    [src/services/geminiService.ts] returns the parsed reply as it is.
    Given a reply in its own schema with a player at [x = 150], it
    returns that player at 150 over the reply's rectangle, whatever the
    manual bounds; the OpenAI service (and the Gemini state that takes
    manual bounds) throws on that reply.  Given the reply the other two
    are written for, it returns a value without [players] and without
    [minimapBounds], which is no [AnalysisResult], where they return the
    normalized result over the manual rectangle. *)
Theorem first_gemini_service_skips_normalization
    (toNumberOther : JS.value number -> number)
    (toStringOther : JS.value number -> string) :
  let manualBounds := Some (rect 0 0 100 100) in
  let normalized :=
    {| mapName := "Haven"; minimapBounds := rect 0 0 100 100;
       players := [{| team := "Red"; agentGuess := None; x := lit 60; y := lit 60 |}];
       summary := "s" |} in
  let openai (body : string) :=
    Untyped.OpenAI.analyzeWithOpenAI toNumberOther toStringOther parseValue
      (Some "sk-key")
      (Some {| Untyped.OpenAI.ok := true; Untyped.OpenAI.statusText := "OK";
               Untyped.OpenAI.body := Some body |})
      manualBounds in
  let gemini (text : string) :=
    Untyped.Gemini.analyzeValorantScreenshot toNumberOther toStringOther parseValue
      (Some {| Untyped.Gemini.text := Some text |}) manualBounds in
  let first (text : string) :=
    Untyped.GeminiFirst.analyzeValorantScreenshot (num:=number) parseValue
      (Some {| Untyped.Gemini.text := Some text |}) in
  (first "{own}" = inr ownValue /\
   JS.asResult (num:=number) ownValue = Some (GeminiFirst.postProcess ownReply) /\
   map (fun p => leb (x p) (lit 100)) (players (GeminiFirst.postProcess ownReply)) = [false] /\
   openai "{completion:own}" = inl TypeError /\
   gemini "{own}" = inl TypeError) /\
  (first "{haven}" = inr havenValue /\
   JS.field (num:=number) havenValue "players" = JS.VUndefined /\
   JS.field (num:=number) havenValue "minimapBounds" = JS.VUndefined /\
   JS.asResult (num:=number) havenValue = None /\
   (exists result, openai "{completion:haven}" = inr result /\
                   JS.asResult result = Some normalized) /\
   (exists result, gemini "{haven}" = inr result /\
                   JS.asResult result = Some normalized) /\
   OpenAI.postProcess havenReply manualBounds = normalized /\
   Gemini.postProcess havenReply manualBounds = normalized).
Proof.
  intros manualBounds normalized openai gemini first.
  subst manualBounds normalized openai gemini first. cbv beta.
  split.
  - do 4 (split; [vm_compute; reflexivity|]). vm_compute; reflexivity.
  - do 4 (split; [vm_compute; reflexivity|]).
    split; [eexists; split; vm_compute; reflexivity|].
    split; [eexists; split; vm_compute; reflexivity|].
    split; vm_compute; reflexivity.
Qed.

(** Replies of another shape: without [mapName] and [summary] the
    result has both [undefined]; without [detectedIcons], or for a reply
    that is [null], the post-processing throws. *)
Example replies_of_another_shape
    (toNumberOther : JS.value number -> number)
    (toStringOther : JS.value number -> string) :
  Untyped.Gemini.postProcess toNumberOther toStringOther bareValue None =
    inr (JS.VObject
           [("mapName", JS.VUndefined);
            ("minimapBounds",
             JS.VObject [("xmin", JS.VNumber (lit 0)); ("ymin", JS.VNumber (lit 0));
                         ("xmax", JS.VNumber (lit 200)); ("ymax", JS.VNumber (lit 200))]);
            ("players",
             JS.VArray [JS.VObject [("team", JS.VString "Red"); ("agentGuess", JS.VUndefined);
                                    ("x", JS.VNumber (lit 30)); ("y", JS.VNumber (lit 30))]]);
            ("summary", JS.VUndefined)]) /\
  Untyped.Gemini.postProcess toNumberOther toStringOther noIconsValue None =
    inl TypeError /\
  Untyped.Gemini.postProcess toNumberOther toStringOther JS.VNull
    (Some (rect 0 0 100 100)) = inl TypeError.
Proof.
  split; [vm_compute; reflexivity|]. split; vm_compute; reflexivity.
Qed.

Lemma well_shaped_reply_gives_typed_result_witness :
  JS.asRawResponse (num:=number) havenValue = Some havenReply /\
  exists result,
    Untyped.Gemini.postProcess (fun _ => NaN) (fun _ => EmptyString) havenValue
      (Some (rect 0 0 100 100)) = inr result /\
    JS.asResult result = Some (Gemini.postProcess havenReply (Some (rect 0 0 100 100))).
Proof.
  assert (A : JS.asRawResponse (num:=number) havenValue = Some havenReply) by reflexivity.
  split; [exact A|].
  exact (proj2 (@well_shaped_reply_gives_typed_result number exact (fun _ => NaN)
                  (fun _ => EmptyString) havenValue havenReply
                  (Some (rect 0 0 100 100)) A)).
Defined.

End UntypedConcrete.

(** ** The pointer and the drag *)

Section PointerAndDrag.
Import MinimapSelector.

(** A zero difference is not above 20. *)
Lemma nltb_false_zero (q : Q) :
  nltb (Fin (inject_Z 20)) (Fin (Qred (q + - q))) = false.
Proof.
  apply not_true_iff_false. rewrite nltb_Fin, Qred_correct.
  change (inject_Z 20) with 20%Q. lra.
Qed.

(** The offset of the pointer, clamped to the image. *)
Lemma clamped_offset (d : number) (w : Q) :
  (0 <= w)%Q -> d <> NaN ->
  exists v,
    nmax (Fin (inject_Z 0)) (nmin d (Fin w)) = Fin v /\ (0 <= v <= w)%Q /\
    (nleb d (Fin (inject_Z 0)) = true -> (v == 0)%Q) /\
    (nleb (Fin w) d = true -> (v == w)%Q).
Proof.
  intros W N. change (inject_Z 0) with 0%Q.
  destruct d as [d| | |]; try contradiction; simpl.
  - destruct (Qle_bool d w) eqn:E; simpl.
    + apply Qle_bool_iff in E.
      destruct (Qle_bool 0 d) eqn:F.
      * apply Qle_bool_iff in F. exists d. rewrite !Qle_bool_iff.
        repeat split; auto; intros; lra.
      * apply not_true_iff_false in F. rewrite Qle_bool_iff in F.
        exists 0%Q. rewrite !Qle_bool_iff. repeat split; auto; intros; lra.
    + apply not_true_iff_false in E. rewrite Qle_bool_iff in E.
      replace (Qle_bool 0 w) with true by (symmetry; now apply Qle_bool_iff).
      exists w. rewrite !Qle_bool_iff. repeat split; auto; intros; lra.
  - replace (Qle_bool 0 w) with true by (symmetry; now apply Qle_bool_iff).
    exists w. repeat split; auto; try lra; try discriminate.
  - exists 0%Q. repeat split; auto; try lra; try discriminate.
Qed.

(** One axis of [getMousePos] over an image of positive size. *)
Lemma axis_on_scale (c l w : Q) :
  (0 < w)%Q ->
  exists i,
    nround (nmul (nmax (Fin (inject_Z 0)) (nmin (nsub (Fin c) (Fin l)) (Fin w)))
                 (ndiv (Fin (inject_Z 1000)) (Fin w))) = Fin (inject_Z i) /\
    (0 <= i <= 1000)%Z /\
    ((c <= l)%Q -> i = 0%Z) /\
    ((l + w <= c)%Q -> i = 1000%Z).
Proof.
  intros W.
  assert (D : nsub (Fin c) (Fin l) = Fin (Qred (c + - l))) by reflexivity.
  destruct (clamped_offset (d := nsub (Fin c) (Fin l)) (w := w)) as (v & E & [V0 V1] & L & U);
    [lra | rewrite D; discriminate |].
  rewrite E.
  assert (Z0 : isZero w = false).
  { apply not_true_iff_false. rewrite isZero_spec. intros Z. rewrite Z in W.
    now apply Qlt_irrefl in W. }
  unfold ndiv. rewrite Z0. unfold nmul, fin, nround.
  set (t := Qred (v * Qred (inject_Z 1000 / w))).
  assert (T : (t == v * (1000 / w))%Q)
    by (unfold t; rewrite !Qred_correct; reflexivity).
  assert (K : (0 < 1000 / w)%Q) by (apply Qlt_shift_div_l; lra).
  assert (T0 : (0 <= t)%Q) by (rewrite T; apply Qmult_le_0_compat; lra).
  assert (T1 : (t <= 1000)%Q).
  { rewrite T. setoid_replace 1000%Q with (w * (1000 / w))%Q at 2 by (field; lra).
    apply Qmult_le_compat_r; lra. }
  exists (Qfloor (t + (1 # 2))). split; [reflexivity|].
  split; [split|split].
  - change 0%Z with (Qfloor (1 # 2)). apply Qfloor_resp_le. lra.
  - change 1000%Z with (Qfloor (2001 # 2)). apply Qfloor_resp_le. lra.
  - intros C. assert (V : (v == 0)%Q).
    { apply L. rewrite D. apply Qle_bool_iff. rewrite Qred_correct.
      change (inject_Z 0) with 0%Q. lra. }
    assert (T2 : (t + (1 # 2) == 1 # 2)%Q) by (rewrite T, V; ring).
    rewrite T2. reflexivity.
  - intros C. assert (V : (v == w)%Q).
    { apply U. rewrite D. apply Qle_bool_iff. rewrite Qred_correct. lra. }
    assert (T2 : (t + (1 # 2) == 2001 # 2)%Q) by (rewrite T, V; field; lra).
    rewrite T2. reflexivity.
Qed.

(** One axis of [getMousePos] over an image without extent. *)
Lemma axis_collapsed (d : number) (w : Q) :
  isZero w = true ->
  nround (nmul (nmax (Fin (inject_Z 0)) (nmin d (Fin w)))
               (ndiv (Fin (inject_Z 1000)) (Fin w))) = NaN.
Proof.
  intros Z. unfold ndiv. rewrite Z. change (isZero (inject_Z 1000)) with false.
  cbv iota. change (isNeg (inject_Z 1000)) with false. cbn [infinity].
  pose proof Z as Zq. apply isZero_spec in Zq.
  destruct d as [d| | |]; [| | |reflexivity].
  - destruct (clamped_offset (d := Fin d) (w := w)) as (v & E & [V0 V1] & _);
      [lra | discriminate |].
    rewrite E. assert (V : isZero v = true) by (apply isZero_spec; lra).
    simpl. now rewrite V.
  - destruct (clamped_offset (d := PosInf) (w := w)) as (v & E & [V0 V1] & _);
      [lra | discriminate |].
    rewrite E. assert (V : isZero v = true) by (apply isZero_spec; lra).
    simpl. now rewrite V.
  - destruct (clamped_offset (d := NegInf) (w := w)) as (v & E & [V0 V1] & _);
      [lra | discriminate |].
    rewrite E. assert (V : isZero v = true) by (apply isZero_spec; lra).
    simpl. now rewrite V.
Qed.

Lemma last_nonempty (A : Type) (l : list A) (a d d' : A) :
  last (a :: l) d = last (a :: l) d'.
Proof.
  revert a. induction l as [|b l IH]; intros a; [reflexivity|].
  change (last (b :: l) d = last (b :: l) d'). apply IH.
Qed.

(** The moves of a drag only replace the current position. *)
Lemma moves_result {num : Type} `{JSNumber num}
    (moves : list (Pos (num:=num))) (p c : Pos) :
  fold_left (fun s m => handleMouseMove m s) moves
    {| isDragging := true; startPos := Some p; currentPos := Some c; selection := None |} =
  {| isDragging := true; startPos := Some p; currentPos := Some (last moves c);
     selection := None |}.
Proof.
  revert c. induction moves as [|m moves IH]; intros c; [reflexivity|].
  simpl fold_left. unfold handleMouseMove at 2. simpl. rewrite IH.
  destruct moves as [|m' moves]; [reflexivity|].
  do 2 f_equal. change (last (m :: m' :: moves) c) with (last (m' :: moves) c).
  apply last_nonempty.
Qed.

(** What a whole drag leaves. *)
Lemma drag_result {num : Type} `{JSNumber num}
    (p : Pos (num:=num)) (moves : list Pos) (s : State) :
  drag p moves s =
  {| isDragging := false; startPos := None; currentPos := None;
     selection :=
       if bigEnough (spanOf p (releasePoint p moves))
       then Some (spanOf p (releasePoint p moves)) else None |}.
Proof.
  unfold drag, handleMouseDown. rewrite moves_result. reflexivity.
Qed.

(** X8.  Over an image of finite position and positive finite size,
    [getMousePos] turns every finite mouse position into a pair of
    integers between 0 and 1000; a pointer at or before the left (top)
    edge gives 0 and one at or beyond the right (bottom) edge gives
    1000. *)
Theorem getMousePos_on_scale (r : Pointer.DOMRect) (e : Pointer.MouseEvent) :
  visibleRect r ->
  isFin (Pointer.clientX e) = true -> isFin (Pointer.clientY e) = true ->
  exists i j : Z,
    Pointer.getMousePos (Some r) e = {| x := lit i; y := lit j |} /\
    (0 <= i <= 1000)%Z /\ (0 <= j <= 1000)%Z /\
    (jle (Pointer.clientX e) (Pointer.left r) -> i = 0%Z) /\
    (jle (add (Pointer.left r) (Pointer.width r)) (Pointer.clientX e) -> i = 1000%Z) /\
    (jle (Pointer.clientY e) (Pointer.top r) -> j = 0%Z) /\
    (jle (add (Pointer.top r) (Pointer.height r)) (Pointer.clientY e) -> j = 1000%Z).
Proof.
  destruct r as [l t w h], e as [c d].
  intros (Fl & Ft & Fw & Fh & Pw & Ph) Fc Fd. unfold gtb, jle in *.
  cbn in Fl, Ft, Fw, Fh, Pw, Ph, Fc, Fd.
  destruct l as [l| | |], t as [t| | |], w as [w| | |], h as [h| | |],
    c as [c| | |], d as [d| | |]; try discriminate.
  apply nltb_Fin in Pw, Ph. change (inject_Z 0) with 0%Q in Pw, Ph.
  destruct (axis_on_scale c l Pw) as (i & Ei & Bi & Li & Ui).
  destruct (axis_on_scale d t Ph) as (j & Ej & Bj & Lj & Uj).
  exists i, j. unfold Pointer.getMousePos.
  cbn [Pointer.left Pointer.top Pointer.width Pointer.height
       Pointer.clientX Pointer.clientY mathRound exactRound
       mathMax mathMin mul div sub add lit leb exact].
  rewrite Ei, Ej.
  split; [reflexivity|]. split; [exact Bi|]. split; [exact Bj|].
  rewrite !nleb_Fin. unfold nadd, fin. rewrite !nleb_Fin, !Qred_correct.
  repeat split; auto.
Qed.

(** X9.  Over an image without width (or without height) [getMousePos]
    returns [NaN] for [x] (for [y]) whatever the mouse position, and no
    drag on such an image ends with a selection. *)
Theorem collapsed_image_cannot_select (r : Pointer.DOMRect)
    (e0 : Pointer.MouseEvent) (es : list Pointer.MouseEvent) (s : State) :
  isZeroNumber (Pointer.width r) = true \/ isZeroNumber (Pointer.height r) = true ->
  (isZeroNumber (Pointer.width r) = true ->
   forall e, x (Pointer.getMousePos (Some r) e) = NaN) /\
  (isZeroNumber (Pointer.height r) = true ->
   forall e, y (Pointer.getMousePos (Some r) e) = NaN) /\
  selection (drag (Pointer.getMousePos (Some r) e0)
                  (map (Pointer.getMousePos (Some r)) es) s) = None.
Proof.
  intros Z.
  assert (X : isZeroNumber (Pointer.width r) = true ->
              forall e, x (Pointer.getMousePos (Some r) e) = NaN).
  { destruct r as [l t w h]. cbn. destruct w as [w| | |]; try discriminate.
    intros Zw e. apply axis_collapsed, Zw. }
  assert (Y : isZeroNumber (Pointer.height r) = true ->
              forall e, y (Pointer.getMousePos (Some r) e) = NaN).
  { destruct r as [l t w h]. cbn. destruct h as [h| | |]; try discriminate.
    intros Zh e. apply axis_collapsed, Zh. }
  split; [exact X|]. split; [exact Y|].
  rewrite drag_result.
  set (p := Pointer.getMousePos (Some r) e0).
  set (q := releasePoint p (map (Pointer.getMousePos (Some r)) es)).
  replace (bigEnough (spanOf p q)) with false; [reflexivity|].
  symmetry. unfold bigEnough, spanOf. cbn [xmin xmax ymin ymax].
  destruct Z as [Zw|Zh].
  - assert (Px : x p = NaN) by (apply X, Zw). rewrite Px. reflexivity.
  - assert (Py : y p = NaN) by (apply Y, Zh). rewrite Py.
    cbn. apply andb_false_r.
Qed.

End PointerAndDrag.

(** ** Whole drags, and the selector with the normalizer *)

Section Drags.
Import MinimapSelector.

(** X10.  A drag replaces the selection.  Whatever the state before and
    however the mouse moved in between, after press, moves and release
    the drag state is cleared and the selection is the rectangle spanned
    by the press point and the last position if that passes the size
    test, and absent otherwise: the selection held before the press,
    the default suggestion included, never survives it. *)
Theorem drag_replaces_selection {num : Type} `{JSNumber num}
    (p : Pos (num:=num)) (moves : list Pos) (s : State) :
  isDragging (drag p moves s) = false /\
  startPos (drag p moves s) = None /\
  currentPos (drag p moves s) = None /\
  selection (drag p moves s) =
    (if bigEnough (spanOf p (releasePoint p moves))
     then Some (spanOf p (releasePoint p moves)) else None) /\
  drag p moves s = drag p [releasePoint p moves] initialState.
Proof.
  rewrite !drag_result. repeat split.
Qed.

(** The span of a point with itself is not big enough. *)
Lemma self_span_small (a : number) :
  nltb (Fin (inject_Z 20)) (nsub (nmax a a) (nmin a a)) = false.
Proof.
  destruct a as [q| | |]; try reflexivity.
  unfold nmax, nmin, nleb. destruct (Qle_bool q q); apply nltb_false_zero.
Qed.

Lemma point_not_bigEnough (p : Pos (num:=number)) : bigEnough (spanOf p p) = false.
Proof.
  unfold bigEnough, spanOf, gtb. cbn [xmin xmax ymin ymax].
  apply andb_false_intro1. apply self_span_small.
Qed.

(** X11.  A click without a drag clears the selection: from any state,
    a press followed by a release at the same point leaves no selection
    (so Confirm is disabled until a new drag is made). *)
Theorem click_clears_selection (p : Pos (num:=number)) (s : State) :
  selection (drag p [] s) = None /\
  confirm (handleMouseUp (handleMouseDown p s)) = None /\
  confirm (handleMouseUp (handleMouseMove p (handleMouseDown p s))) = None.
Proof.
  assert (D : selection (drag p [] s) = None).
  { rewrite drag_result. unfold releasePoint. simpl last.
    now rewrite point_not_bigEnough. }
  split; [exact D|]. split; [exact D|].
  change (selection (drag p [p] s) = None).
  rewrite drag_result. unfold releasePoint. simpl last.
  now rewrite point_not_bigEnough.
Qed.

Lemma nmin_comm_Z (i j : Z) :
  nmin (Fin (inject_Z i)) (Fin (inject_Z j)) = nmin (Fin (inject_Z j)) (Fin (inject_Z i)).
Proof.
  unfold nmin, nleb.
  destruct (Qle_bool (inject_Z i) (inject_Z j)) eqn:A,
           (Qle_bool (inject_Z j) (inject_Z i)) eqn:B; try reflexivity.
  - apply Qle_bool_iff in A, B. rewrite <- Zle_Qle in A, B.
    assert (i = j) by lia. now subst.
  - apply not_true_iff_false in A, B. rewrite Qle_bool_iff, <- Zle_Qle in A, B. lia.
Qed.

Lemma nmax_comm_Z (i j : Z) :
  nmax (Fin (inject_Z i)) (Fin (inject_Z j)) = nmax (Fin (inject_Z j)) (Fin (inject_Z i)).
Proof.
  unfold nmax, nleb.
  destruct (Qle_bool (inject_Z i) (inject_Z j)) eqn:A,
           (Qle_bool (inject_Z j) (inject_Z i)) eqn:B; try reflexivity.
  - apply Qle_bool_iff in A, B. rewrite <- Zle_Qle in A, B.
    assert (i = j) by lia. now subst.
  - apply not_true_iff_false in A, B. rewrite Qle_bool_iff, <- Zle_Qle in A, B. lia.
Qed.

(** X12.  The direction of a drag does not matter: between two points of
    the integer scale, dragging from the first to the second and from the
    second to the first leave the same state, whatever the states
    before. *)
Theorem drag_direction_irrelevant (i1 j1 i2 j2 : Z) (s s' : State (num:=number)) :
  drag {| x := lit i1; y := lit j1 |} [{| x := lit i2; y := lit j2 |}] s =
  drag {| x := lit i2; y := lit j2 |} [{| x := lit i1; y := lit j1 |}] s'.
Proof.
  rewrite !drag_result. unfold releasePoint. cbn [last].
  assert (E : spanOf (num:=number) {| x := lit i1; y := lit j1 |} {| x := lit i2; y := lit j2 |} =
              spanOf {| x := lit i2; y := lit j2 |} {| x := lit i1; y := lit j1 |}).
  { unfold spanOf. cbn [x y mathMin mathMax lit exact].
    now rewrite (nmin_comm_Z i1 i2), (nmin_comm_Z j1 j2),
                (nmax_comm_Z i1 i2), (nmax_comm_Z j1 j2). }
  now rewrite E.
Qed.

End Drags.

Section SelectorAndNormalizer.

(** The selector keeps finite numbers finite. *)
Lemma nmin_finite (a b : number) :
  isFin a = true -> isFin b = true -> isFin (nmin a b) = true.
Proof.
  destruct a, b; try discriminate. intros _ _. unfold nmin.
  destruct (nleb (Fin q) (Fin q0)); reflexivity.
Qed.

Lemma nmax_finite (a b : number) :
  isFin a = true -> isFin b = true -> isFin (nmax a b) = true.
Proof.
  destruct a, b; try discriminate. intros _ _. unfold nmax.
  destruct (nleb (Fin q) (Fin q0)); reflexivity.
Qed.

Lemma step_keeps_finite (s : MinimapSelector.State) (e : MinimapSelector.Event) :
  finiteEvent e = true -> finiteState s -> finiteState (MinimapSelector.step s e).
Proof.
  intros Fe Fst. pose proof Fst as (Fs & Fc & Fsel).
  assert (Up : finiteState (MinimapSelector.handleMouseUp s)).
  { unfold MinimapSelector.handleMouseUp.
    destruct (MinimapSelector.isDragging s); [|exact Fst].
    destruct (MinimapSelector.startPos s) as [sp|] eqn:S; [|exact Fst].
    destruct (MinimapSelector.currentPos s) as [cp|] eqn:C; [|exact Fst].
    split; [discriminate|]. split; [discriminate|]. simpl.
    match goal with |- forall b, (if ?c then _ else _) = _ -> _ => destruct c eqn:B end;
      [|exact Fsel].
    intros b E. injection E as <-.
    pose proof (Fs sp eq_refl) as Fsp. pose proof (Fc cp eq_refl) as Fcp.
    unfold finitePos in Fsp, Fcp. apply andb_true_iff in Fsp, Fcp.
    destruct Fsp as [Fsx Fsy], Fcp as [Fcx Fcy].
    split.
    - unfold finiteRect. cbn [xmin xmax ymin ymax mathMin mathMax exact].
      rewrite !nmin_finite, !nmax_finite by assumption. reflexivity.
    - right. apply andb_true_iff in B. exact B. }
  destruct e; simpl in *; try exact Up.
  - unfold MinimapSelector.defaultSuggestion. destruct (MinimapSelector.selection s) eqn:S; [exact Fst|].
    split; [exact Fs|]. split; [exact Fc|]. simpl.
    intros b E. injection E as <-. split; [reflexivity | now left].
  - unfold MinimapSelector.handleMouseDown. split; simpl.
    + intros p' E. injection E as <-. exact Fe.
    + split; [intros p' E; injection E as <-; exact Fe | discriminate].
  - unfold MinimapSelector.handleMouseMove.
    destruct (MinimapSelector.isDragging s); [|exact Fst].
    destruct (MinimapSelector.startPos s) eqn:S; [|exact Fst].
    split; [exact Fs|]. split; [|exact Fsel]. simpl.
    intros p' E. injection E as <-. exact Fe.
  - exact Fst.
Qed.

Lemma fold_keeps_finite (events : list MinimapSelector.Event) (s : MinimapSelector.State) :
  forallb finiteEvent events = true -> finiteState s ->
  finiteState (fold_left MinimapSelector.step events s).
Proof.
  revert s. induction events as [|e events IH]; intros s F Fs; [exact Fs|].
  simpl in F. apply andb_true_iff in F. destruct F as [Fe F].
  simpl. apply IH; [exact F|]. now apply step_keeps_finite.
Qed.

(** The coordinates [getMousePos] returns are finite, and the selector
    keeps to them. *)
Lemma onScale_spec (a : number) :
  onScale a = true <-> exists i : Z, a = lit i /\ (0 <= i <= 1000)%Z.
Proof.
  split.
  - destruct a as [[n d]| | |]; try discriminate. cbn [onScale Qden Qnum].
    rewrite !andb_true_iff, Pos.eqb_eq, !Z.leb_le. intros [[-> L] U].
    exists n. split; [reflexivity|lia].
  - intros (i & -> & L & U). cbn [onScale lit exact inject_Z Qden Qnum].
    rewrite !andb_true_iff, Pos.eqb_eq, !Z.leb_le. repeat split; assumption.
Qed.

Lemma onScale_finite (a : number) : onScale a = true -> isFin a = true.
Proof. destruct a; [reflexivity|discriminate..]. Qed.

Lemma scaleEvent_finite (e : MinimapSelector.Event) :
  scaleEvent e = true -> finiteEvent e = true.
Proof.
  destruct e; simpl; try reflexivity;
    unfold scalePos, finitePos; rewrite !andb_true_iff;
    intros [X Y]; split; now apply onScale_finite.
Qed.

Lemma nmin_onScale (a b : number) :
  onScale a = true -> onScale b = true -> onScale (nmin a b) = true.
Proof.
  destruct a as [p| | |], b as [q| | |]; try discriminate. intros A B. unfold nmin.
  destruct (nleb (Fin p) (Fin q)); assumption.
Qed.

Lemma nmax_onScale (a b : number) :
  onScale a = true -> onScale b = true -> onScale (nmax a b) = true.
Proof.
  destruct a as [p| | |], b as [q| | |]; try discriminate. intros A B. unfold nmax.
  destruct (nleb (Fin p) (Fin q)); assumption.
Qed.

Lemma step_keeps_scale (s : MinimapSelector.State) (e : MinimapSelector.Event) :
  scaleEvent e = true -> scaleState s -> scaleState (MinimapSelector.step s e).
Proof.
  intros Fe Fst. pose proof Fst as (Fs & Fc & Fsel).
  assert (Up : scaleState (MinimapSelector.handleMouseUp s)).
  { unfold MinimapSelector.handleMouseUp.
    destruct (MinimapSelector.isDragging s); [|exact Fst].
    destruct (MinimapSelector.startPos s) as [sp|] eqn:S; [|exact Fst].
    destruct (MinimapSelector.currentPos s) as [cp|] eqn:C; [|exact Fst].
    split; [discriminate|]. split; [discriminate|]. simpl.
    match goal with |- forall b, (if ?c then _ else _) = _ -> _ => destruct c eqn:B end;
      [|exact Fsel].
    intros b E. injection E as <-.
    pose proof (Fs sp eq_refl) as Fsp. pose proof (Fc cp eq_refl) as Fcp.
    unfold scalePos in Fsp, Fcp. apply andb_true_iff in Fsp, Fcp.
    destruct Fsp as [Fsx Fsy], Fcp as [Fcx Fcy].
    unfold scaleRect. cbn [xmin xmax ymin ymax mathMin mathMax exact].
    rewrite !nmin_onScale, !nmax_onScale by assumption. reflexivity. }
  destruct e; simpl in *; try exact Up.
  - unfold MinimapSelector.defaultSuggestion.
    destruct (MinimapSelector.selection s) eqn:S; [exact Fst|].
    split; [exact Fs|]. split; [exact Fc|]. simpl.
    intros b E. injection E as <-. reflexivity.
  - unfold MinimapSelector.handleMouseDown. split; simpl.
    + intros p' E. injection E as <-. exact Fe.
    + split; [intros p' E; injection E as <-; exact Fe | discriminate].
  - unfold MinimapSelector.handleMouseMove.
    destruct (MinimapSelector.isDragging s); [|exact Fst].
    destruct (MinimapSelector.startPos s) eqn:S; [|exact Fst].
    split; [exact Fs|]. split; [|exact Fsel]. simpl.
    intros p' E. injection E as <-. exact Fe.
  - exact Fst.
Qed.

Lemma fold_keeps_scale (events : list MinimapSelector.Event) (s : MinimapSelector.State) :
  forallb scaleEvent events = true -> scaleState s ->
  scaleState (fold_left MinimapSelector.step events s).
Proof.
  revert s. induction events as [|e events IH]; intros s F Fs; [exact Fs|].
  simpl in F. apply andb_true_iff in F. destruct F as [Fe F].
  simpl. apply IH; [exact F|]. now apply step_keeps_scale.
Qed.

Lemma scale_events_finite (events : list MinimapSelector.Event) :
  forallb scaleEvent events = true -> forallb finiteEvent events = true.
Proof.
  induction events as [|e events IH]; [reflexivity|]. simpl.
  rewrite !andb_true_iff. intros [E F]. split; [now apply scaleEvent_finite | now apply IH].
Qed.

(** X13.  The selector and the normalizer together, in exact arithmetic.
    When every mouse position the selector saw is one [getMousePos]
    returns (whole numbers from 0 to 1000), the rectangle a click on
    Confirm passes on has whole coordinates with
    [0 <= xmin < xmax <= 1000] and [0 <= ymin < ymax <= 1000]; and used as
    manual bounds it never yields a [NaN]: every player of every result
    has [x] and [y] in [[0,100]]. *)
Theorem confirmed_bounds_give_percentages
    (events : list MinimapSelector.Event) (b : MinimapBounds number) :
  forallb scaleEvent events = true ->
  MinimapSelector.confirm (MinimapSelector.stateAfter events) = Some b ->
  (exists x0 y0 x1 y1 : Z,
      b = rect x0 y0 x1 y1 /\
      (0 <= x0)%Z /\ (x0 < x1)%Z /\ (x1 <= 1000)%Z /\
      (0 <= y0)%Z /\ (y0 < y1)%Z /\ (y1 <= 1000)%Z) /\
  properRect b /\
  (forall provider rawData p,
      In p (players (postProcessOf provider rawData (Some b))) ->
      inPercentRange (x p) /\ inPercentRange (y p)).
Proof.
  intros Sc C.
  assert (F : forallb finiteEvent events = true) by now apply scale_events_finite.
  assert (I : finiteState (MinimapSelector.stateAfter events)).
  { apply fold_keeps_finite; [exact F|]. repeat split; discriminate. }
  assert (J : scaleState (MinimapSelector.stateAfter events)).
  { apply fold_keeps_scale; [exact Sc|]. repeat split; discriminate. }
  destruct I as (_ & _ & I). destruct (I b C) as [Fb G].
  destruct J as (_ & _ & J). specialize (J b C).
  assert (P : properRect b).
  { split; [exact Fb|].
    destruct G as [->|[WX WY]]; [now split|].
    split; now apply above_20_positive. }
  split; [|split; [exact P|]].
  - destruct P as (_ & PX & PY). unfold gtb in PX, PY. cbn [ltb exact] in PX, PY.
    unfold scaleRect in J. rewrite !andb_true_iff in J.
    destruct J as [[[X0 Y0] X1] Y1].
    apply onScale_spec in X0, Y0, X1, Y1.
    destruct X0 as (x0 & EX0 & LX0 & UX0), Y0 as (y0 & EY0 & LY0 & UY0),
             X1 as (x1 & EX1 & LX1 & UX1), Y1 as (y1 & EY1 & LY1 & UY1).
    rewrite EX0, EX1 in PX. rewrite EY0, EY1 in PY.
    cbn [lit exact] in PX, PY. apply nltb_Fin in PX, PY.
    rewrite <- Zlt_Qlt in PX, PY.
    exists x0, y0, x1, y1. repeat split; try assumption.
    destruct b as [by0 bx0 by1 bx1]. cbn [xmin ymin xmax ymax] in EX0, EY0, EX1, EY1.
    subst. reflexivity.
  - intros provider rawData p Ip.
    rewrite players_postProcessOf in Ip.
    assert (M : mapBoxOf provider rawData (Some b) = b) by (destruct provider; reflexivity).
    rewrite M in Ip. unfold playersOf in Ip.
    apply filterNotNull_In, in_map_iff in Ip. destruct Ip as (icon & E & _).
    destruct (kept_axes provider icon P E)
      as (x0 & y0 & x1 & y1 & qx & qy & rx & ry & _ & _ & _ & _ & _ & EX & EY & _ & _ & RX & RY & _).
    rewrite EX, EY. unfold inPercentRange, jle. cbn [leb lit exact].
    rewrite !nleb_Fin. change (inject_Z 0) with 0%Q. change (inject_Z 100) with 100%Q.
    tauto.
Qed.

End SelectorAndNormalizer.

(** ** Labels and data URLs *)

Section StringFacts.
Local Open Scope string_scope.

Lemma prefix_spec (t s : string) :
  String.prefix t s = true <-> exists b, s = t ++ b.
Proof.
  revert s. induction t as [|c t IH]; intros s.
  - destruct s; simpl; split; auto; intros _; eexists; reflexivity.
  - destruct s as [|d s]; simpl.
    + split; [discriminate | intros (b & E); discriminate].
    + destruct (Ascii.ascii_dec c d) as [->|N].
      * rewrite IH. split; intros (b & E); exists b; congruence.
      * split; [discriminate | intros (b & E); congruence].
Qed.

Lemma includes_spec (s t : string) :
  includes s t = true <-> exists a b, s = a ++ t ++ b.
Proof.
  induction s as [|c s IH]; cbn [includes].
  - rewrite orb_false_r, prefix_spec. split.
    + intros (b & E). exists "", b. exact E.
    + intros (a & b & E). destruct a; [now exists b | discriminate].
  - rewrite orb_true_iff, prefix_spec, IH. split.
    + intros [(b & E) | (a & b & E)].
      * exists "", b. exact E.
      * exists (String c a), b. simpl. now rewrite E.
    + intros (a & b & E). destruct a as [|d a].
      * left. now exists b.
      * right. exists a, b. simpl in E. congruence.
Qed.

Lemma toLowerCase_app (a b : string) :
  toLowerCase (a ++ b) = toLowerCase a ++ toLowerCase b.
Proof. induction a as [|c a IH]; simpl; [reflexivity | now rewrite IH]. Qed.

Lemma toLowerCase_split (s u v : string) :
  toLowerCase s = u ++ v ->
  exists s1 s2, s = s1 ++ s2 /\ toLowerCase s1 = u /\ toLowerCase s2 = v.
Proof.
  revert s. induction u as [|c u IH]; intros s E.
  - exists "", s. auto.
  - destruct s as [|d s]; [discriminate|]. simpl in E.
    injection E as Ec E. destruct (IH s E) as (s1 & s2 & -> & L1 & L2).
    exists (String d s1), s2. simpl. now rewrite Ec, L1.
Qed.

(** The test of [getTeamColor], read on the label itself. *)
Lemma includes_lower_mentions (label keyword : string) :
  includes (toLowerCase label) keyword = true <-> mentions label keyword.
Proof.
  rewrite includes_spec. unfold mentions. split.
  - intros (a & b & E).
    destruct (toLowerCase_split _ _ _ E) as (s1 & r & -> & L1 & L2).
    destruct (toLowerCase_split _ _ _ L2) as (w & s3 & -> & Lw & L3).
    now exists s1, w, s3.
  - intros (a & w & b & -> & <-).
    exists (toLowerCase a), (toLowerCase b). now rewrite !toLowerCase_app.
Qed.

Lemma includes_false_mentions (label keyword : string) :
  includes (toLowerCase label) keyword = false <-> ~ mentions label keyword.
Proof.
  rewrite <- includes_lower_mentions.
  destruct (includes (toLowerCase label) keyword); split; congruence.
Qed.

(** X14.  The colour of a team label goes by keyword, in a fixed order
    and whatever the case of the letters: a label that mentions "red" or
    "attack" anywhere, even inside another word and even beside "blue",
    gets the red classes; the cyan classes go to the labels that mention
    "blue", "cyan" or "defend" and neither of the former; white is left
    exactly for the labels that mention none of the seven keywords.
    Stated for labels of ASCII characters, on which [toLowerCase] is as
    modelled. *)
Theorem team_colour_by_keyword (team : string) :
  isAscii team = true ->
  (AnalysisVisualizer.getTeamColor team = "bg-[#ff4655] ring-[#ff4655]" <->
     mentions team "red" \/ mentions team "attack") /\
  (AnalysisVisualizer.getTeamColor team = "bg-[#00e5bf] ring-[#00e5bf]" <->
     ~ (mentions team "red" \/ mentions team "attack") /\
     (mentions team "blue" \/ mentions team "cyan" \/ mentions team "defend")) /\
  (AnalysisVisualizer.getTeamColor team = "bg-white ring-white" <->
     ~ mentions team "red" /\ ~ mentions team "attack" /\
     ~ mentions team "blue" /\ ~ mentions team "cyan" /\ ~ mentions team "defend" /\
     ~ mentions team "green" /\ ~ mentions team "yellow").
Proof.
  intros _. unfold AnalysisVisualizer.getTeamColor.
  rewrite <- !includes_lower_mentions.
  destruct (includes (toLowerCase team) "red"),
           (includes (toLowerCase team) "attack"),
           (includes (toLowerCase team) "blue"),
           (includes (toLowerCase team) "cyan"),
           (includes (toLowerCase team) "defend"),
           (includes (toLowerCase team) "green"),
           (includes (toLowerCase team) "yellow"); simpl;
    repeat split; try discriminate; try tauto; try intuition discriminate.
Qed.

Lemma lacks_app (sep : Ascii.ascii) (a b : string) :
  lacks sep (a ++ b) = lacks sep a && lacks sep b.
Proof.
  induction a as [|c a IH]; simpl; [reflexivity|].
  now rewrite IH, andb_assoc.
Qed.

Lemma split_lacks (sep : Ascii.ascii) (s : string) :
  lacks sep s = true -> split sep s = [s].
Proof.
  induction s as [|c s IH]; simpl; [reflexivity|].
  intros L. apply andb_true_iff in L. destruct L as [N L].
  apply negb_true_iff in N. rewrite N, (IH L). reflexivity.
Qed.

Lemma split_at_first (sep : Ascii.ascii) (a b : string) :
  lacks sep a = true -> split sep (a ++ String sep b) = a :: split sep b.
Proof.
  induction a as [|c a IH]; simpl.
  - intros _. now rewrite Ascii.eqb_refl.
  - intros L. apply andb_true_iff in L. destruct L as [N L].
    apply negb_true_iff in N. rewrite N, (IH L). reflexivity.
Qed.

Lemma append_assoc' (a b c : string) : (a ++ b) ++ c = a ++ b ++ c.
Proof. induction a as [|x a IH]; simpl; [reflexivity | now rewrite IH]. Qed.

Lemma append_length (a b : string) :
  String.length (a ++ b) = (String.length a + String.length b)%nat.
Proof. induction a as [|c a IH]; simpl; [reflexivity | now rewrite IH]. Qed.

Lemma append_cancel_l (a b c : string) : a ++ b = a ++ c -> b = c.
Proof.
  induction a as [|x a IH]; simpl; [auto|]. intros E. injection E as E. auto.
Qed.

Lemma append_cancel_r (a b c : string) : a ++ c = b ++ c -> a = b.
Proof.
  intros E.
  assert (L : String.length a = String.length b).
  { apply (f_equal String.length) in E. rewrite !append_length in E. lia. }
  revert b E L. induction a as [|x a IH]; intros [|y b] E L; try discriminate.
  - reflexivity.
  - simpl in E, L. injection E as -> E. f_equal. apply IH; [exact E | lia].
Qed.

(** X15.  From the upload to the request.  Of a data URL
    [data:<type>;base64,<payload>] the service is given the payload
    alone (what stands between the first comma and the next), and the
    URL the OpenAI request carries labels it [image/png], as the Gemini
    request does: it is the uploaded URL again exactly when the upload
    was a PNG.  A source without a comma has no payload. *)
Theorem payload_from_upload (mediaType payload : string) :
  lacks comma mediaType = true -> lacks comma payload = true ->
  App.base64Data ("data:" ++ mediaType ++ ";base64," ++ payload) = Some payload /\
  (forall more,
      App.base64Data ("data:" ++ mediaType ++ ";base64," ++ payload ++ "," ++ more)
      = Some payload) /\
  (openaiImageUrl payload = "data:" ++ mediaType ++ ";base64," ++ payload
     <-> mediaType = "image/png") /\
  geminiInlineData payload = ("image/png", payload) /\
  (forall source, lacks comma source = true -> App.base64Data source = None).
Proof.
  intros Lm Lp.
  assert (Lh : lacks comma ("data:" ++ mediaType ++ ";base64") = true).
  { rewrite !lacks_app, Lm. reflexivity. }
  assert (A : forall rest,
             "data:" ++ mediaType ++ ";base64," ++ rest =
             ("data:" ++ mediaType ++ ";base64") ++ String comma rest).
  { intros rest.
    change (";base64," ++ rest) with (";base64" ++ String comma rest).
    now rewrite <- !append_assoc'. }
  unfold App.base64Data. split; [|split; [|split; [|split; [reflexivity|]]]].
  - rewrite A, (@split_at_first comma _ _ Lh), (@split_lacks comma _ Lp). reflexivity.
  - intros more. rewrite A, (@split_at_first comma _ _ Lh).
    change (payload ++ "," ++ more) with (payload ++ String comma more).
    rewrite (@split_at_first comma _ _ Lp). reflexivity.
  - unfold openaiImageUrl. split.
    + intros E.
      change ("data:image/png;base64," ++ payload)
        with ("data:" ++ "image/png" ++ ";base64," ++ payload) in E.
      apply append_cancel_l, append_cancel_r in E. now symmetry.
    + intros ->. reflexivity.
  - intros source Ls. rewrite (@split_lacks comma _ Ls). reflexivity.
Qed.

End StringFacts.
(** ** The screens of [App] *)

Section AppFacts.
Context {result failure : Type}.
Local Open Scope string_scope.

Lemma step_keeps_data (s : App.State (result:=result))
    (e : App.Event (result:=result) (failure:=failure)) :
  screensHaveData s -> screensHaveData (App.step s e).
Proof.
  intros I. pose proof I as (E & A). destruct e as [fileType|loaded| |[thrown|value]|]; simpl.
  - unfold App.handleFileChange.
    destruct (negb (startsWith fileType "image/")); [|exact I].
    split; simpl; auto. discriminate.
  - split; simpl; discriminate.
  - unfold App.handleConfirmCrop.
    destruct (truthy (App.imageSrc s)) eqn:T; simpl; [|exact I].
    split; simpl; auto; discriminate.
  - split; simpl; discriminate.
  - split; simpl; discriminate.
  - split; simpl; discriminate.
Qed.

(** X16.  Whatever the order in which files are chosen and read, crops
    confirmed, analyses settled and resets asked for, the error screen
    is only entered with a message to show and the analysing screen with
    an image; an analysis that fails never erases the result or the
    image held before; and an analysis that resolves enters the result
    screen with the resolved value stored as it is, whatever it is. *)
Theorem screens_have_their_data
    (events : list (App.Event (result:=result) (failure:=failure))) :
  let s := App.stateAfter events in
  screensHaveData s /\
  (forall thrown : failure,
      let s' := App.step s (App.Settled (result:=result) (inl thrown)) in
      App.analysisData s' = App.analysisData s /\ App.imageSrc s' = App.imageSrc s) /\
  (forall value : result,
      let s' := App.step s (App.Settled (failure:=failure) (inr value)) in
      App.state s' = App.SUCCESS /\ App.analysisData s' = Some value).
Proof.
  intros s. split; [|split; intros v; split; reflexivity].
  subst s. unfold App.stateAfter.
  assert (G : forall s, screensHaveData s ->
                        screensHaveData (fold_left App.step events s)).
  { induction events as [|e events' IH]; intros s I; [exact I|].
    simpl. apply IH, step_keeps_data, I. }
  apply G. split; discriminate.
Qed.

End AppFacts.

(** ** Instances of the further conditional theorems *)

Section MoreInstances.
Local Open Scope string_scope.

Lemma flat_rectangle_emits_NaN_witness :
  toPlayerOf (num:=number) openai (rect 100 100 100 300) (detection "Red" 90 190 110 210) =
    Some {| team := "Red"; agentGuess := None; x := NaN; y := Fin 50 |} /\
  jle (num:=number) (lit 100) (lit 100) /\
  x {| team := "Red"; agentGuess := None; x := NaN; y := Fin 50 |} = NaN.
Proof.
  assert (E : toPlayerOf (num:=number) openai (rect 100 100 100 300)
                (detection "Red" 90 190 110 210) =
              Some {| team := "Red"; agentGuess := None; x := NaN; y := Fin 50 |})
    by reflexivity.
  assert (F : jle (num:=number) (lit 100) (lit 100)) by reflexivity.
  split; [exact E|]. split; [exact F|].
  destruct (flat_rectangle_emits_NaN openai _ _ E) as [X _]. exact (X F).
Defined.

Lemma unordered_rectangle_keeps_nothing_witness :
  leb (num:=number) (lit 200) (lit 100) && leb (num:=number) (lit 0) (lit 100) = false /\
  playersOf (num:=number) gemini (rect 200 0 100 100) [detection "Red" 140 40 160 60] = [].
Proof.
  assert (U : leb (xmin (rect (num:=number) 200 0 100 100)) (xmax (rect 200 0 100 100)) &&
              leb (ymin (rect (num:=number) 200 0 100 100)) (ymax (rect 200 0 100 100)) = false)
    by reflexivity.
  split; [reflexivity|].
  destruct (unordered_rectangle_keeps_nothing gemini _ U) as [P _]. apply P.
Defined.

Lemma position_determines_center_witness :
  properRect (rect 0 0 200 200) /\
  cx (num:=number) (detection "Red" 50 50 70 70) = Fin 60 /\
  add (num:=number) (lit 0) (div (mul (Fin 30) (sub (lit 200) (lit 0))) (lit 100)) = Fin 60.
Proof.
  assert (P : properRect (rect 0 0 200 200)) by (repeat split).
  assert (E : toPlayerOf (num:=number) gemini (rect 0 0 200 200) (detection "Red" 50 50 70 70) =
              Some {| team := "Red"; agentGuess := None; x := Fin 30; y := Fin 30 |})
    by reflexivity.
  split; [exact P|]. split; [reflexivity|].
  destruct (position_determines_center gemini _ P E) as [X _]. exact X.
Defined.

Lemma normalization_preserves_order_witness :
  properRect (rect 0 0 200 200) /\
  jle (num:=number) (Fin 30) (Fin 80) /\
  jle (cx (num:=number) (detection "Red" 50 50 70 70)) (cx (detection "Blue" 150 20 170 40)).
Proof.
  assert (P : properRect (rect 0 0 200 200)) by (repeat split).
  assert (Ea : toPlayerOf (num:=number) gemini (rect 0 0 200 200) (detection "Red" 50 50 70 70) =
               Some {| team := "Red"; agentGuess := None; x := Fin 30; y := Fin 30 |})
    by reflexivity.
  assert (Eb : toPlayerOf (num:=number) gemini (rect 0 0 200 200) (detection "Blue" 150 20 170 40) =
               Some {| team := "Blue"; agentGuess := None; x := Fin 80; y := Fin 15 |})
    by reflexivity.
  assert (L : jle (num:=number) (Fin 30) (Fin 80)) by reflexivity.
  split; [exact P|]. split; [exact L|].
  destruct (normalization_preserves_order gemini _ _ P Ea Eb) as [X _].
  apply X. exact L.
Defined.

Lemma getMousePos_on_scale_witness :
  visibleRect {| Pointer.left := lit 10; Pointer.top := lit 20;
                 Pointer.width := lit 500; Pointer.height := lit 250 |} /\
  Pointer.getMousePos (num:=number)
    (Some {| Pointer.left := lit 10; Pointer.top := lit 20;
             Pointer.width := lit 500; Pointer.height := lit 250 |})
    {| Pointer.clientX := lit 260; Pointer.clientY := lit 5 |} =
  {| MinimapSelector.x := lit 500; MinimapSelector.y := lit 0 |} /\
  exists i j : Z,
    Pointer.getMousePos (num:=number)
      (Some {| Pointer.left := lit 10; Pointer.top := lit 20;
               Pointer.width := lit 500; Pointer.height := lit 250 |})
      {| Pointer.clientX := lit 260; Pointer.clientY := lit 5 |} =
    {| MinimapSelector.x := lit i; MinimapSelector.y := lit j |} /\
    (0 <= i <= 1000)%Z /\ (0 <= j <= 1000)%Z.
Proof.
  assert (V : visibleRect {| Pointer.left := lit 10; Pointer.top := lit 20;
                             Pointer.width := lit 500; Pointer.height := lit 250 |})
    by (repeat split).
  assert (Fc : isFin (Pointer.clientX (num:=number)
                        {| Pointer.clientX := lit 260; Pointer.clientY := lit 5 |}) = true)
    by reflexivity.
  assert (Fd : isFin (Pointer.clientY (num:=number)
                        {| Pointer.clientX := lit 260; Pointer.clientY := lit 5 |}) = true)
    by reflexivity.
  split; [exact V|]. split; [reflexivity|].
  destruct (@getMousePos_on_scale _ _ V Fc Fd) as (i & j & E & Bi & Bj & _).
  exists i, j. repeat split; try exact E; try apply Bi; try apply Bj.
Defined.

Lemma collapsed_image_cannot_select_witness :
  isZeroNumber (lit 0) = true /\
  MinimapSelector.selection
    (drag (num:=number)
       (Pointer.getMousePos
          (Some {| Pointer.left := lit 10; Pointer.top := lit 20;
                   Pointer.width := lit 0; Pointer.height := lit 250 |})
          {| Pointer.clientX := lit 15; Pointer.clientY := lit 30 |})
       (map (Pointer.getMousePos
               (Some {| Pointer.left := lit 10; Pointer.top := lit 20;
                        Pointer.width := lit 0; Pointer.height := lit 250 |}))
            [{| Pointer.clientX := lit 400; Pointer.clientY := lit 200 |}])
       (MinimapSelector.stateAfter [MinimapSelector.Mounted])) = None.
Proof.
  split; [reflexivity|].
  assert (Z : isZeroNumber (Pointer.width
                {| Pointer.left := lit 10; Pointer.top := lit 20;
                   Pointer.width := lit 0; Pointer.height := lit 250 |}) = true \/
              isZeroNumber (Pointer.height
                {| Pointer.left := lit 10; Pointer.top := lit 20;
                   Pointer.width := lit 0; Pointer.height := lit 250 |}) = true)
    by (left; reflexivity).
  destruct (@collapsed_image_cannot_select _
              {| Pointer.clientX := lit 15; Pointer.clientY := lit 30 |}
              [{| Pointer.clientX := lit 400; Pointer.clientY := lit 200 |}]
              (MinimapSelector.stateAfter [MinimapSelector.Mounted]) Z) as (_ & _ & S).
  exact S.
Defined.

Lemma confirmed_bounds_give_percentages_witness :
  forallb scaleEvent sampleDrag = true /\
  MinimapSelector.confirm (MinimapSelector.stateAfter (num:=number) sampleDrag) =
    Some (rect 100 100 400 380) /\
  properRect (rect 100 100 400 380).
Proof.
  assert (F : forallb scaleEvent sampleDrag = true) by reflexivity.
  assert (C : MinimapSelector.confirm (MinimapSelector.stateAfter (num:=number) sampleDrag) =
              Some (rect 100 100 400 380)) by reflexivity.
  split; [exact F|]. split; [exact C|].
  destruct (@confirmed_bounds_give_percentages sampleDrag _ F C) as (_ & P & _). exact P.
Defined.

Lemma team_colour_by_keyword_witness :
  isAscii "Scared BLUE" = true /\
  mentions "Scared BLUE" "red" /\
  AnalysisVisualizer.getTeamColor "Scared BLUE" = "bg-[#ff4655] ring-[#ff4655]".
Proof.
  assert (A : isAscii "Scared BLUE" = true) by reflexivity.
  assert (M : mentions "Scared BLUE" "red")
    by (exists "Sca", "red", " BLUE"; split; reflexivity).
  split; [exact A|]. split; [exact M|].
  destruct (team_colour_by_keyword "Scared BLUE" A) as [R _].
  apply R. left. exact M.
Defined.

Lemma payload_from_upload_witness :
  lacks comma "image/jpeg" = true /\ lacks comma "QUJD" = true /\
  App.base64Data "data:image/jpeg;base64,QUJD" = Some "QUJD" /\
  openaiImageUrl "QUJD" <> "data:image/jpeg;base64,QUJD".
Proof.
  assert (Lm : lacks comma "image/jpeg" = true) by reflexivity.
  assert (Lp : lacks comma "QUJD" = true) by reflexivity.
  split; [exact Lm|]. split; [exact Lp|].
  destruct (payload_from_upload "image/jpeg" "QUJD" Lm Lp) as (B & _ & U & _).
  split; [exact B|].
  intros E. apply U in E. discriminate E.
Defined.

Lemma edges_map_to_ends_witness :
  properRect (rect 0 0 200 200) /\
  jle (num:=number) (lit 200) (cx (detection "Blue" 190 0 210 20)) /\
  x {| team := "Blue"; agentGuess := None; x := Fin 100; y := Fin 5 |} = lit 100.
Proof.
  assert (P : properRect (rect 0 0 200 200)) by (repeat split).
  assert (E : toPlayerOf (num:=number) openai (rect 0 0 200 200) (detection "Blue" 190 0 210 20) =
              Some {| team := "Blue"; agentGuess := None; x := Fin 100; y := Fin 5 |})
    by reflexivity.
  assert (L : jle (num:=number) (lit 200) (cx (detection "Blue" 190 0 210 20)))
    by reflexivity.
  split; [exact P|]. split; [exact L|].
  destruct (edges_map_to_ends openai _ P E) as (_ & X & _).
  apply X. exact L.
Defined.

End MoreInstances.
